(** * Endicia shipping on sale orders: a shallow embedding of [sale.py]

    The module extends the Tryton sale order with Endicia (USPS) postage:
    [SaleLine.get_weight_for_endicia], [Sale.get_endicia_shipping_cost],
    [Sale.get_endicia_shipping_rates] and [Sale.apply_endicia_shipping].

    Conventions of the embedding:
    - Python's [Decimal] and [float] values are rationals ([Q]), computed
      exactly; where the code multiplies floats, a property about the value
      assumes that the factors and the product are floats ([is_double]);
    - a Python exception is a value of [exn]; a method that can raise returns
      a [result]; a [UserError] is its message, built as [raise_user_error]
      builds it from the messages of the model;
    - the remote postage service is a function of the world, and every call
      of [send_request] is appended to a log of requests, so that the number
      of attempts can be counted;
    - the records of the host system (units, currencies, carriers, mail
      classes) are tables of the world, and [search] is a filter on them. *)

From Stdlib Require Import List String Ascii Bool Arith ZArith QArith Qround Lia.
From Stdlib Require Import Permutation.
Import ListNotations.
Local Open Scope string_scope.
Local Open Scope list_scope.

Set Implicit Arguments.

(** ** Exceptions and results *)

(** The payload of [trytond.exceptions.UserError]: its message.  Two
    errors of this class with the same message are the same exception. *)
Definition user_error : Type := string.

Inductive exn : Type :=
| UserError (e : user_error)
| RequestError (message : string)   (* endicia.exceptions.RequestError *)
| ValueError                        (* [x, = xs] when xs is not a singleton *)
| AttributeError                    (* attribute of None *)
| TypeError                         (* None[:5], Decimal(None) *)
| InvalidOperation                  (* Decimal of a malformed literal *)
| Exception (name : string).        (* any other exception of a collaborator *)

Definition is_UserError (e : exn) : bool :=
  match e with UserError _ => true | _ => false end.

Definition is_RequestError (e : exn) : bool :=
  match e with RequestError _ => true | _ => false end.

Inductive result (A : Type) : Type :=
| Ok (a : A)
| Raise (e : exn).
Arguments Ok {A} a.
Arguments Raise {A} e.

Definition rbind {A B} (r : result A) (k : A -> result B) : result B :=
  match r with
  | Ok a => k a
  | Raise e => Raise e
  end.

Notation "x <-? r ;; k" := (rbind r (fun x => k))
  (at level 61, r at next level, right associativity).

Fixpoint rmap {A B} (f : A -> result B) (xs : list A) : result (list B) :=
  match xs with
  | [] => Ok []
  | x :: xs' => y <-? f x ;; ys <-? rmap f xs' ;; Ok (y :: ys)
  end.

(** [x, = xs]: single-element unpacking. *)
Definition unpack1 {A} (xs : list A) : result A :=
  match xs with
  | [x] => Ok x
  | _ => Raise ValueError
  end.

(** ** The error messages registered by [__setup__] *)

(** [Sale.__setup__]: the entries added to the messages of the sale. *)
Definition Sale__setup__messages : list (string * string) :=
  [ ("mailclass_missing", "Select a mailclass to ship using Endicia [USPS].") ].

(** [SaleLine.__setup__]: the entries added to the messages of the line. *)
Definition SaleLine__setup__messages : list (string * string) :=
  [ ("weight_required", "Weight is missing on the product %s") ].

(** [table.get(key, key)] *)
Fixpoint lookup_message (key : string) (table : list (string * string)) : string :=
  match table with
  | [] => key
  | (k, m) :: rest => if String.eqb k key then m else lookup_message key rest
  end.

(** [template % (arg,)] for a template with one [%s]. *)
Fixpoint format_percent_s (template arg : string) : string :=
  match template with
  | EmptyString => EmptyString
  | String c rest =>
      match rest with
      | String c' rest' =>
          if (Ascii.eqb c "%" && Ascii.eqb c' "s")%bool then arg ++ rest'
          else String c (format_percent_s rest arg)
      | EmptyString => String c EmptyString
      end
  end.

(** The message built by [raise_user_error(error, error_args)] of the host:
    the text registered under [error] in the table of the model, or [error]
    itself when it is no key of the table, formatted with the argument when
    there is one.  Translations are left out: the messages are those of the
    source. *)
Definition raise_user_error_text (table : list (string * string))
    (error : string) (error_args : option string) : user_error :=
  match error_args with
  | Some arg => format_percent_s (lookup_message error table) arg
  | None => lookup_message error table
  end.

(** [self.raise_user_error('mailclass_missing')] on a sale.  The entry of
    [__setup__] comes first in the table of the sale, so the entries
    inherited from the host do not matter for this key. *)
Definition MailClassMissingError : user_error :=
  raise_user_error_text Sale__setup__messages "mailclass_missing" None.

(** [self.raise_user_error('weight_required', error_args=(name,))] on a
    line. *)
Definition MissingWeightError (product_name : string) : user_error :=
  raise_user_error_text SaleLine__setup__messages "weight_required"
    (Some product_name).

(** [e.message] *)
Definition user_error_message (e : user_error) : string := e.

(** ** Data model *)

Definition Decimal := Q.

(** [bool(d)] for a number. *)
Definition nonzero (d : Q) : bool := negb (Qeq_bool d 0).

(** [bool(x)] for a number that may be [None]. *)
Definition truthy_number (x : option Q) : bool :=
  match x with
  | Some d => nonzero d
  | None => false
  end.

(** The rationals that a Python [float] holds: the binary64 numbers
    [m * 2^e] with [|m| < 2^53] and [-1074 <= e <= 971]. *)
Definition is_double (x : Q) : Prop :=
  exists m e : Z,
    (Z.abs m < 2 ^ 53)%Z /\ (-1074 <= e <= 971)%Z /\ x == inject_Z m * 2 ^ e.

(** [bool(s)] for a string that may be [None]. *)
Definition truthy_string (x : option string) : bool :=
  match x with
  | Some s => negb (String.eqb s "")
  | None => false
  end.

Record Uom : Type := {
  uom_id : nat;
  symbol : string
}.

(** Records of the host system compare by id. *)
Definition uom_eqb (a b : Uom) : bool := Nat.eqb (uom_id a) (uom_id b).

Record Product : Type := {
  product_id : nat;
  product_name : string;
  product_type : string;        (* 'goods', 'assets', 'service' *)
  weight : option Q;            (* None when unset *)
  weight_uom : Uom;
  default_uom : Uom;
  sale_uom : Uom
}.

Record SaleLine : Type := {
  line_id : nat;
  line_type : string;
  product : option Product;
  description : string;
  quantity : option Q;          (* None on lines that are not of type 'line' *)
  unit : Uom;
  unit_price : Decimal;
  shipment_cost : option Decimal;
  amount : Decimal;
  taxes : list nat;
  sequence : Z
}.

Record Currency : Type := {
  currency_id : nat;
  code : string
}.

Record Mailclass : Type := {
  mailclass_id : nat;
  name : string;
  value : string
}.

Record Carrier : Type := {
  carrier_id : nat;
  carrier_cost_method : string;
  carrier_product : Product
}.

Record Country : Type := {
  country_code : string
}.

Record Address : Type := {
  zip : option string;
  country : option Country
}.

Record Location : Type := {
  address : option Address
}.

Record Sale : Type := {
  sale_id : nat;
  carrier : option Carrier;
  endicia_mailclass : option Mailclass;
  currency : Currency;
  lines : list SaleLine;
  warehouse : option Location;
  shipment_address : option Address
}.

Record Credentials : Type := {
  account_id : string;
  requester_id : string;
  passphrase : string;
  is_test : bool
}.

(** The keyword arguments of [CalculatingPostageAPI]. *)
Record Request : Type := {
  req_mailclass : string;
  req_weightoz : Decimal;
  req_from_postal_code : string;
  req_to_postal_code : string;
  req_to_country_code : string;
  req_accountid : string;
  req_requesterid : string;
  req_passphrase : string;
  req_test : bool
}.

(** The objectified response: [PostagePrice.get('TotalAmount')]. *)
Record Response : Type := {
  TotalAmount : option string
}.

(** A rate tuple of [_make_endicia_rate_line]:
    (label, rate, currency, {}, write_vals). *)
Record RateLine : Type := {
  rate_label : string;
  rate_cost : Decimal;
  rate_currency : Currency;
  rate_extra : list (string * string);
  rate_write_vals : nat * nat     (* 'carrier', 'endicia_mailclass' *)
}.

(** What [send_request] of the client library does with a request: it
    returns the response, raises [RequestError] when the service reports an
    error, or fails with an exception of its own (a transport failure). *)
Inductive send_outcome : Type :=
| Responded (response : Response)
| ServiceError (message : string)
| TransportFailure (name : string).

(** ** The world: collaborators outside this module *)

Record World : Type := {
  (* tables of the host system *)
  uoms : list Uom;
  currencies : list Currency;
  carriers : list Carrier;
  mailclasses : list Mailclass;
  (* ProductUom.compute_qty(from_uom, qty, to_uom) *)
  compute_qty : Uom -> Q -> Uom -> Q;
  (* Currency.compute(from_currency, amount, to_currency) *)
  Currency_compute : Currency -> Decimal -> Currency -> Decimal;
  (* carrier.get_sale_price(), in the carrier context of the sale *)
  get_sale_price : Sale -> result (option Decimal * nat);
  (* carrier._get_endicia_mailclass_name(mailclass) *)
  _get_endicia_mailclass_name : Carrier -> Mailclass -> string;
  (* the record read by EndiciaConfiguration(1).get_endicia_credentials() *)
  endicia_configuration : Credentials;
  (* the error messages that the sale model inherits from the host *)
  sale_error_messages : list (string * string);
  (* what the remote service answers to a request *)
  send_request : Request -> send_outcome;
  (* Decimal(literal) *)
  Decimal_of_string : string -> option Decimal
}.

Definition ProductUom_search_symbol (w : World) (s : string) : list Uom :=
  filter (fun u => String.eqb (symbol u) s) (uoms w).

Definition Currency_search_code (w : World) (c : string) : list Currency :=
  filter (fun cur => String.eqb (code cur) c) (currencies w).

Definition Carrier_search_cost_method (w : World) (m : string) : list Carrier :=
  filter (fun c => String.eqb (carrier_cost_method c) m) (carriers w).

(** Modelled from the spec: [EndiciaConfiguration.get_endicia_credentials],
    defined in the configuration module of the repository, is the read of
    the process-wide credentials (account id, requester id, passphrase,
    test-mode flag) at request time. *)
Definition get_endicia_credentials (w : World) : Credentials :=
  endicia_configuration w.

(** [Sale._error_messages] after [__setup__]: the inherited messages
    updated with the entries of this module. *)
Definition Sale_error_messages (w : World) : list (string * string) :=
  Sale__setup__messages ++ sale_error_messages w.

(** [self.raise_user_error(unicode(e))] on a sale, for a [RequestError]
    [e] of the service: the text of [e], looked up in the messages of the
    sale like any other argument of [raise_user_error]. *)
Definition CarrierRequestError (w : World) (message : string) : user_error :=
  raise_user_error_text (Sale_error_messages w) message None.

(** ** [SaleLine.get_weight_for_endicia] *)

(** The product [float(self.product.weight) * quantity] is computed here
    on the rationals, without the rounding of the float multiplication:
    the value is that of the code when the weight, the quantity and their
    product are floats (see [is_double]), and the branches and exceptions
    are those of the code in every case. *)
Definition get_weight_for_endicia (w : World) (self : SaleLine) : result Decimal :=
  match product self with
  | None => Ok 0                                   (* not self.product *)
  | Some p =>
      if String.eqb (product_type p) "service" then Ok 0
      else
        match quantity self with
        | None => Ok 0                             (* None <= 0 holds in Python 2 *)
        | Some q =>
            if Qle_bool q 0 then Ok 0
            else
              match weight p with
              | None => Raise (UserError (MissingWeightError (product_name p)))
              | Some pw =>
                  if negb (nonzero pw)
                  then Raise (UserError (MissingWeightError (product_name p)))
                  else
                    let quantity' :=
                      if negb (uom_eqb (unit self) (default_uom p))
                      then compute_qty w (unit self) q (default_uom p)
                      else q in
                    let weight' := pw * quantity' in
                    weight'' <-?
                      (if negb (String.eqb (symbol (weight_uom p)) "oz")
                       then
                         ounce <-? unpack1 (ProductUom_search_symbol w "oz") ;;
                         Ok (compute_qty w (weight_uom p) weight' ounce)
                       else Ok weight') ;;
                    Ok (inject_Z (Qceiling weight''))
              end
        end
  end.

(** ** The request monad: results with a log of the requests sent *)

Definition M (A : Type) : Type := list Request -> result A * list Request.

Definition ret {A} (a : A) : M A := fun log => (Ok a, log).

Definition raise {A} (e : exn) : M A := fun log => (Raise e, log).

Definition bind {A B} (m : M A) (k : A -> M B) : M B :=
  fun log =>
    match m log with
    | (Ok a, log') => k a log'
    | (Raise e, log') => (Raise e, log')
    end.

Definition lift {A} (r : result A) : M A := fun log => (r, log).

Notation "x <- m ;; k" := (bind m (fun x => k))
  (at level 61, m at next level, right associativity).

(** [try: body  except <catches>, e: handler e]. *)
Definition try_except {A} (body : M A) (catches : exn -> bool)
    (handler : exn -> M A) : M A :=
  fun log =>
    match body log with
    | (Raise e, log') =>
        if catches e then handler e log' else (Raise e, log')
    | r => r
    end.

Definition result_of_outcome (o : send_outcome) : result Response :=
  match o with
  | Responded response => Ok response
  | ServiceError message => Raise (RequestError message)
  | TransportFailure name => Raise (Exception name)
  end.

(** [calculate_postage_request.send_request()]: one attempt, logged. *)
Definition do_send_request (w : World) (r : Request) : M Response :=
  fun log => (result_of_outcome (send_request w r), log ++ [r]).

(** [s[:5]] *)
Definition first5 (s : string) : string := substring 0 5 s.

(** [a.zip[:5]] for an address that may be [None]. *)
Definition zip5 (a : option Address) : result string :=
  match a with
  | None => Raise AttributeError
  | Some a' =>
      match zip a' with
      | None => Raise TypeError
      | Some z => Ok (first5 z)
      end
  end.

(** [a.country.code] *)
Definition address_country_code (a : option Address) : result string :=
  match a with
  | None => Raise AttributeError
  | Some a' =>
      match country a' with
      | None => Raise AttributeError
      | Some c => Ok (country_code c)
      end
  end.

(** [sum(xs)] of decimals. *)
Definition sum (xs : list Decimal) : Decimal := fold_left Qplus xs 0.

(** ** [Sale] *)

Definition _get_ship_from_address (self : Sale) : result (option Address) :=
  match warehouse self with
  | None => Raise AttributeError
  | Some loc => Ok (address loc)
  end.

(** [Decimal(objectify_response(response).PostagePrice.get('TotalAmount'))] *)
Definition parse_total_amount (w : World) (response : Response) : result Decimal :=
  match TotalAmount response with
  | None => Raise TypeError
  | Some literal =>
      match Decimal_of_string w literal with
      | Some d => Ok d
      | None => Raise InvalidOperation
      end
  end.

(** [mailclass or self.endicia_mailclass.value] *)
Definition mailclass_or_selected (mailclass : option string)
    (selected : option Mailclass) : result string :=
  match mailclass with
  | Some m =>
      if truthy_string mailclass then Ok m
      else match selected with
           | Some mc => Ok (value mc)
           | None => Raise AttributeError
           end
  | None =>
      match selected with
      | Some mc => Ok (value mc)
      | None => Raise AttributeError
      end
  end.

(** The first part of [get_endicia_shipping_cost]: the check of the mail
    class and the arguments of [CalculatingPostageAPI], evaluated in the
    order of the source. *)
Definition calculate_postage_request (w : World) (self : Sale)
    (mailclass : option string) : result Request :=
  let endicia_credentials := get_endicia_credentials w in
  if (negb (truthy_string mailclass)
      && negb (match endicia_mailclass self with Some _ => true | None => false end))%bool
  then Raise (UserError MailClassMissingError)
  else
    from_address <-? _get_ship_from_address self ;;
    mailclass' <-? mailclass_or_selected mailclass (endicia_mailclass self) ;;
    weights <-? rmap (get_weight_for_endicia w) (lines self) ;;
    from_postal_code <-? zip5 from_address ;;
    to_postal_code <-? zip5 (shipment_address self) ;;
    to_country_code <-? address_country_code (shipment_address self) ;;
    Ok {| req_mailclass := mailclass';
          req_weightoz := sum weights;
          req_from_postal_code := from_postal_code;
          req_to_postal_code := to_postal_code;
          req_to_country_code := to_country_code;
          req_accountid := account_id endicia_credentials;
          req_requesterid := requester_id endicia_credentials;
          req_passphrase := passphrase endicia_credentials;
          req_test := is_test endicia_credentials |}.

Definition get_endicia_shipping_cost (w : World) (self : Sale)
    (mailclass : option string) : M Decimal :=
  request <- lift (calculate_postage_request w self mailclass) ;;
  response <-
    try_except (do_send_request w request)
      is_RequestError
      (fun e =>
         match e with
         | RequestError message => raise (UserError (CarrierRequestError w message))
         | _ => raise e
         end) ;;
  lift (parse_total_amount w response).

Definition _get_endicia_mail_classes (w : World) (self : Sale) : list Mailclass :=
  mailclasses w.                                   (* Mailclass.search([]) *)

Definition _make_endicia_rate_line (w : World) (self : Sale) (carrier : Carrier)
    (mailclass : Mailclass) (shipment_rate : Decimal) : result RateLine :=
  usd <-? unpack1 (Currency_search_code w "USD") ;;
  let write_vals := (carrier_id carrier, mailclass_id mailclass) in
  Ok {| rate_label := _get_endicia_mailclass_name w carrier mailclass;
        rate_cost := shipment_rate;
        rate_currency := usd;
        rate_extra := [];
        rate_write_vals := write_vals |}.

(** [bool(t)] of a rate tuple: a tuple of five elements is never empty. *)
Definition truthy_rate_line (r : RateLine) : bool := true.

(** The [for] loop of [get_endicia_shipping_rates]. *)
Fixpoint shipping_rates_loop (w : World) (self : Sale) (carrier : Carrier)
    (silent : bool) (pending : list Mailclass) (rate_lines : list RateLine)
    : M (list RateLine) :=
  match pending with
  | [] => ret rate_lines
  | mailclass :: pending' =>
      fun log =>
        match get_endicia_shipping_cost w self (Some (value mailclass)) log with
        | (Ok cost, log') =>
            (rate_line <- lift (_make_endicia_rate_line w self carrier mailclass cost) ;;
             shipping_rates_loop w self carrier silent pending'
               (rate_lines ++ [rate_line])) log'
        | (Raise e, log') =>
            if is_UserError e then                 (* except UserError: *)
              if negb silent then (Raise e, log')  (*   raise *)
              else                                 (*   continue *)
                shipping_rates_loop w self carrier silent pending' rate_lines log'
            else (Raise e, log')
        end
  end.

Definition get_endicia_shipping_rates (w : World) (self : Sale) (silent : bool)
    : M (list RateLine) :=
  carrier <- lift (unpack1 (Carrier_search_cost_method w "endicia")) ;;
  rate_lines <-
    shipping_rates_loop w self carrier silent (_get_endicia_mail_classes w self) [] ;;
  ret (filter truthy_rate_line rate_lines).

(** The truth value of [self.carrier and
    self.carrier.carrier_cost_method == 'endicia']. *)
Definition get_is_endicia_shipping (self : Sale) : bool :=
  match carrier self with
  | Some c => String.eqb (carrier_cost_method c) "endicia"
  | None => false
  end.

(** *** Writing the lines of a sale *)

(** The actions of a One2Many write used by the source. *)
Inductive o2m_action : Type :=
| create (values : list SaleLine)      (* the ids of the values are ignored *)
| delete (records : list SaleLine).

(** The id of a created line.  The host takes it from the sequence of the
    table; the model takes the first id above the ids of the sale, and the
    properties below use of it only that no line of the sale has it. *)
Definition fresh_line_id (ls : list SaleLine) : nat :=
  S (list_max (map line_id ls)).

Definition with_line_id (i : nat) (l : SaleLine) : SaleLine :=
  {| line_id := i;
     line_type := line_type l;
     product := product l;
     description := description l;
     quantity := quantity l;
     unit := unit l;
     unit_price := unit_price l;
     shipment_cost := shipment_cost l;
     amount := amount l;
     taxes := taxes l;
     sequence := sequence l |}.

(** The created lines are put after the others; the host reads the lines
    of a sale by their sequence, and no property below depends on the
    place of the created line. *)
Fixpoint create_lines (values : list SaleLine) (ls : list SaleLine) : list SaleLine :=
  match values with
  | [] => ls
  | v :: values' => create_lines values' (ls ++ [with_line_id (fresh_line_id ls) v])
  end.

Definition delete_lines (records : list SaleLine) (ls : list SaleLine) : list SaleLine :=
  filter (fun l => negb (existsb (fun r => Nat.eqb (line_id r) (line_id l)) records)) ls.

(** The actions are carried out in the order of the list. *)
Fixpoint o2m_set (actions : list o2m_action) (ls : list SaleLine) : list SaleLine :=
  match actions with
  | [] => ls
  | create values :: actions' => o2m_set actions' (create_lines values ls)
  | delete records :: actions' => o2m_set actions' (delete_lines records ls)
  end.

(** [Sale.write([self], {'lines': actions})] *)
Definition Sale_write_lines (self : Sale) (actions : list o2m_action) : Sale :=
  {| sale_id := sale_id self;
     carrier := carrier self;
     endicia_mailclass := endicia_mailclass self;
     currency := currency self;
     lines := o2m_set actions (lines self);
     warehouse := warehouse self;
     shipment_address := shipment_address self |}.

(** [line.shipment_cost] as a condition: the line is a shipment-cost line. *)
Definition is_shipment_cost_line (l : SaleLine) : bool :=
  truthy_number (shipment_cost l).

(** The values of the shipping line created by [apply_endicia_shipping]. *)
Definition shipping_line_values (c : Carrier) (mailclass : Mailclass)
    (shipment_cost' : Decimal) : SaleLine :=
  {| line_id := 0;
     line_type := "line";
     product := Some (carrier_product c);
     description := name mailclass;
     quantity := Some 1;
     unit := sale_uom (carrier_product c);
     unit_price := shipment_cost';
     shipment_cost := Some shipment_cost';
     amount := shipment_cost';
     taxes := [];
     sequence := 9999%Z |}.

(** [apply_endicia_shipping] returns the sale as it is after the call; an
    exception leaves the stored sale as it was. *)
Definition apply_endicia_shipping (w : World) (self : Sale) : result Sale :=
  match carrier self with
  | None => Ok self
  | Some c =>
      if String.eqb (carrier_cost_method c) "endicia" then
        match endicia_mailclass self with
        | None => Raise (UserError MailClassMissingError)
        | Some mailclass =>
            shipment_cost_usd <-? get_sale_price w self ;;
            match fst shipment_cost_usd with
            | None => Ok self                      (* not shipment_cost_usd[0] *)
            | Some cost_usd =>
                if negb (nonzero cost_usd) then Ok self
                else
                  usd <-? unpack1 (Currency_search_code w "USD") ;;
                  let shipment_cost' :=
                    Currency_compute w usd cost_usd (currency self) in
                  Ok (Sale_write_lines self
                        [ create [shipping_line_values c mailclass shipment_cost'];
                          delete (filter is_shipment_cost_line (lines self)) ])
            end
        end
      else Ok self
  end.

(** [update_endicia_shipment_cost(sales)]: one sale after the other. *)
Fixpoint update_endicia_shipment_cost (w : World) (sales : list Sale)
    : result (list Sale) :=
  match sales with
  | [] => Ok []
  | sale :: sales' =>
      sale' <-? apply_endicia_shipping w sale ;;
      rest <-? update_endicia_shipment_cost w sales' ;;
      Ok (sale' :: rest)
  end.

(** *** Dictionaries *)

(** A Python dictionary with string keys, as the list of its items. *)
Definition dict (V : Type) : Type := list (string * V).

(** [d.get(key)] *)
Fixpoint dict_get {V} (key : string) (d : dict V) : option V :=
  match d with
  | [] => None
  | (k, v) :: d' => if String.eqb k key then Some v else dict_get key d'
  end.

(** [d[key] = v]: the value of an existing key is replaced, a new key is
    added. *)
Fixpoint dict_set {V} (key : string) (v : V) (d : dict V) : dict V :=
  match d with
  | [] => [(key, v)]
  | (k, v') :: d' =>
      if String.eqb k key then (k, v) :: d' else (k, v') :: dict_set key v d'
  end.

(** The values held by a transaction context. *)
Inductive context_value : Type :=
| ctx_id (n : nat)
| ctx_bool (b : bool)
| ctx_str (s : string).

(** *** The carrier of a sale *)

(** [self.carrier and self.carrier.carrier_cost_method == 'endicia']: the
    value is the carrier itself, so [None], when the sale has no carrier. *)
Definition carrier_and_endicia (self : Sale) : option bool :=
  match carrier self with
  | None => None
  | Some c => Some (String.eqb (carrier_cost_method c) "endicia")
  end.

(** [on_change_carrier], over the changes computed by the inherited
    method. *)
Definition on_change_carrier (inherited : dict (option bool)) (self : Sale)
    : dict (option bool) :=
  dict_set "is_endicia_shipping" (carrier_and_endicia self) inherited.

(** [_get_carrier_context], over the context of the inherited method. *)
Definition _get_carrier_context (inherited : dict context_value) (self : Sale)
    : result (dict context_value) :=
  match carrier self with
  | None => Raise AttributeError          (* self.carrier.carrier_cost_method *)
  | Some c =>
      if negb (String.eqb (carrier_cost_method c) "endicia") then Ok inherited
      else Ok (dict_set "sale" (ctx_id (sale_id self)) inherited)
  end.

(** *** Shipments *)

(** The fields that this module adds to an outgoing shipment. *)
Record Shipment : Type := {
  shipment_id : nat;
  shipment_endicia_mailclass : option nat;
  shipment_is_endicia_shipping : bool
}.

(** [Shipment.write(shipments, {'endicia_mailclass': m,
    'is_endicia_shipping': f})] *)
Definition Shipment_write (shipments : list Shipment) (m : nat) (f : bool)
    : list Shipment :=
  map (fun s => {| shipment_id := shipment_id s;
                   shipment_endicia_mailclass := Some m;
                   shipment_is_endicia_shipping := f |}) shipments.

(** [create_shipment], over the inherited method, which returns the
    shipments it created, an empty list or [None]. *)
Definition create_shipment
    (inherited : string -> result (option (list Shipment)))
    (self : Sale) (shipment_type : string) : result (option (list Shipment)) :=
  shipments <-? inherited shipment_type ;;
  if String.eqb shipment_type "out" then
    match shipments with
    | Some (s :: ss) =>
        if get_is_endicia_shipping self then
          match endicia_mailclass self with
          | None => Raise AttributeError     (* self.endicia_mailclass.id *)
          | Some mailclass =>
              Ok (Some (Shipment_write (s :: ss) (mailclass_id mailclass)
                          (get_is_endicia_shipping self)))
          end
        else Ok shipments
    | _ => Ok shipments                      (* [] and None are falsy *)
    end
  else Ok shipments.

(** ** [Configuration] *)

Definition ENDICIA_PACKAGE_TYPES : list (string * string) :=
  [ ("Documents", "Documents");
    ("Gift", "Gift");
    ("Merchandise", "Merchandise");
    ("Other", "Other");
    ("Sample", "Sample") ].

Definition endicia_label_subtype_selection : list (string * string) :=
  [ ("None", "None"); ("Integrated", "Integrated") ].

Definition endicia_integrated_form_type_selection : list (option string * string) :=
  [ (None, "");
    (Some "Form2976", "Form2976(Same as CN22)");
    (Some "Form2976A", "Form2976(Same as CP72)") ].

Definition default_endicia_label_subtype : string := "None".

Definition default_endicia_integrated_form_type : option string := None.

Definition default_endicia_package_type : string := "Other".

(** The record of the sale configuration, with the fields of this module. *)
Record Configuration : Type := {
  configured_mailclass : option Mailclass;
  endicia_label_subtype : string;
  endicia_integrated_form_type : option string;
  endicia_include_postage : bool;
  endicia_package_type : string
}.

(** [Sale.default_endicia_mailclass]:
    [config.endicia_mailclass and config.endicia_mailclass.id or None]. *)
Definition default_endicia_mailclass (config : Configuration) : option nat :=
  match configured_mailclass config with
  | None => None
  | Some mailclass =>
      if Nat.eqb (mailclass_id mailclass) 0 then None
      else Some (mailclass_id mailclass)
  end.

(** The stored sale after a call of [apply_endicia_shipping]. *)
Definition sale_after (w : World) (self : Sale) : Sale :=
  match apply_endicia_shipping w self with
  | Ok self' => self'
  | Raise _ => self
  end.

Definition shipment_cost_lines (self : Sale) : list SaleLine :=
  filter is_shipment_cost_line (lines self).

(** ** The words of the specification, for comparison with the code *)

(** Quoting one mail class from a fresh log: what the quote returns, and
    which requests it sends. *)
Definition quote (w : World) (self : Sale) (mailclass : Mailclass) : result Decimal :=
  fst (get_endicia_shipping_cost w self (Some (value mailclass)) []).

Definition quote_requests (w : World) (self : Sale) (mailclass : Mailclass)
    : list Request :=
  snd (get_endicia_shipping_cost w self (Some (value mailclass)) []).

(** A rate option: (display label, cost, currency, extra metadata,
    write values). *)
Definition rate_option (w : World) (c : Carrier) (usd : Currency)
    (mailclass : Mailclass) (cost : Decimal) : RateLine :=
  {| rate_label := _get_endicia_mailclass_name w c mailclass;
     rate_cost := cost;
     rate_currency := usd;
     rate_extra := [];
     rate_write_vals := (carrier_id c, mailclass_id mailclass) |}.

(** One option per mail class whose quote succeeds, in iteration order. *)
Fixpoint quoted_options (w : World) (self : Sale) (c : Carrier) (usd : Currency)
    (eligible : list Mailclass) : list RateLine :=
  match eligible with
  | [] => []
  | mailclass :: eligible' =>
      match quote w self mailclass with
      | Ok cost =>
          rate_option w c usd mailclass cost :: quoted_options w self c usd eligible'
      | Raise _ => quoted_options w self c usd eligible'
      end
  end.

(** An option built from the carrier, the single USD currency, one of the
    eligible mail classes and the cost quoted for it. *)
Definition option_of (w : World) (self : Sale) (c : Carrier)
    (eligible : list Mailclass) (o : RateLine) : Prop :=
  exists m cost,
    In m eligible
    /\ quote w self m = Ok cost
    /\ Currency_search_code w "USD" = [rate_currency o]
    /\ o = rate_option w c (rate_currency o) m cost.

(** The requests sent while quoting the mail classes one after the other. *)
Definition requests_of (w : World) (self : Sale) (eligible : list Mailclass)
    : list Request :=
  flat_map (quote_requests w self) eligible.

(** The quote returned a cost. *)
Definition is_Ok {A} (r : result A) : bool :=
  match r with
  | Ok _ => true
  | Raise _ => false
  end.

(** The quote returned a cost or raised a [UserError]. *)
Definition is_Ok_or_UserError {A} (r : result A) : bool :=
  match r with
  | Ok _ => true
  | Raise e => is_UserError e
  end.

(** The outcomes on which the loop of the rate shopper goes on to the next
    mail class. *)
Definition goes_on {A} (silent : bool) (r : result A) : bool :=
  if silent then is_Ok_or_UserError r else is_Ok r.



(** ** Concrete records and worlds *)

Definition oz : Uom := {| uom_id := 1; symbol := "oz" |}.
Definition lb : Uom := {| uom_id := 2; symbol := "lb" |}.
Definition each : Uom := {| uom_id := 3; symbol := "u" |}.

Definition USD : Currency := {| currency_id := 1; code := "USD" |}.
Definition XBT : Currency := {| currency_id := 2; code := "XBT" |}.

Definition postage : Product :=
  {| product_id := 1; product_name := "USPS postage"; product_type := "service";
     weight := None; weight_uom := oz; default_uom := each; sale_uom := each |}.

Definition letter : Product :=
  {| product_id := 2; product_name := "Letter"; product_type := "goods";
     weight := Some (12 # 10); weight_uom := oz; default_uom := each;
     sale_uom := each |}.

(** A letter whose weight is the float nearest to 1.2. *)
Definition airmail_letter : Product :=
  {| product_id := 6; product_name := "Airmail letter"; product_type := "goods";
     weight := Some (5404319552844595 # 4503599627370496); weight_uom := oz;
     default_uom := each; sale_uom := each |}.

Definition anvil : Product :=
  {| product_id := 3; product_name := "Anvil"; product_type := "goods";
     weight := Some 16; weight_uom := lb; default_uom := each; sale_uom := each |}.

Definition ghost : Product :=
  {| product_id := 4; product_name := "Ghost"; product_type := "goods";
     weight := Some 0; weight_uom := oz; default_uom := each; sale_uom := each |}.

Definition balloon : Product :=
  {| product_id := 5; product_name := "Balloon"; product_type := "goods";
     weight := Some (-3 # 2); weight_uom := oz; default_uom := each;
     sale_uom := each |}.

Definition line_of (i : nat) (p : Product) (q : Q) : SaleLine :=
  {| line_id := i; line_type := "line"; product := Some p;
     description := product_name p; quantity := Some q; unit := each;
     unit_price := 10; shipment_cost := None; amount := 10 * q; taxes := [];
     sequence := 1%Z |}.

Definition usps : Carrier :=
  {| carrier_id := 1; carrier_cost_method := "endicia"; carrier_product := postage |}.

Definition courier : Carrier :=
  {| carrier_id := 2; carrier_cost_method := "product"; carrier_product := postage |}.

Definition priority : Mailclass :=
  {| mailclass_id := 1; name := "Priority Mail"; value := "Priority" |}.
Definition unnamed : Mailclass :=
  {| mailclass_id := 2; name := "Unnamed"; value := "" |}.
Definition first_class : Mailclass :=
  {| mailclass_id := 3; name := "First-Class Mail"; value := "First" |}.
Definition express : Mailclass :=
  {| mailclass_id := 4; name := "Express Mail"; value := "Express" |}.
Definition parcel : Mailclass :=
  {| mailclass_id := 5; name := "Parcel Select"; value := "Parcel" |}.

Definition depot : Location :=
  {| address := Some {| zip := Some "33139-1234";
                        country := Some {| country_code := "US" |} |} |}.

Definition customer_address : Address :=
  {| zip := Some "10001"; country := Some {| country_code := "US" |} |}.

Definition decimal_digit (c : ascii) : option Z :=
  let n := nat_of_ascii c in
  if (Nat.leb 48 n && Nat.leb n 57)%bool then Some (Z.of_nat (n - 48)) else None.

(** Literals of the form [digits] or [digits.digits]. *)
Fixpoint plain_decimal_aux (s : string) (num : Z) (den : positive)
    (fraction seen : bool) : option Q :=
  match s with
  | EmptyString => if seen then Some (num # den) else None
  | String c rest =>
      if Ascii.eqb c "." then
        if fraction then None else plain_decimal_aux rest num den true seen
      else
        match decimal_digit c with
        | Some d =>
            plain_decimal_aux rest (10 * num + d)
              (if fraction then (10 * den)%positive else den) fraction true
        | None => None
        end
  end.

Definition plain_decimal (s : string) : option Q :=
  plain_decimal_aux s 0 1 false false.

(** The service of the examples: it prices Priority and First-Class mail,
    cannot be reached for parcels, and rejects every other mail class. *)
Definition example_service (r : Request) : send_outcome :=
  if String.eqb (req_mailclass r) "Priority"
  then Responded {| TotalAmount := Some "5.25" |}
  else if String.eqb (req_mailclass r) "First"
  then Responded {| TotalAmount := Some "2.10" |}
  else if String.eqb (req_mailclass r) "Parcel"
  then TransportFailure "URLError"
  else ServiceError "Mail class not available".

Definition example_world : World :=
  {| uoms := [oz; lb; each];
     currencies := [USD; XBT];
     carriers := [usps; courier];
     mailclasses := [priority; unnamed; first_class];
     compute_qty := fun from_uom q to_uom =>
       if (String.eqb (symbol from_uom) "lb" && String.eqb (symbol to_uom) "oz")%bool
       then 16 * q else q;
     Currency_compute := fun _ a _ => a;
     get_sale_price := fun _ => Ok (Some (21 # 4), 1%nat);
     _get_endicia_mailclass_name := fun c m => ("USPS " ++ name m)%string;
     endicia_configuration :=
       {| account_id := "123456"; requester_id := "lxxx"; passphrase := "secret";
          is_test := true |};
     sale_error_messages :=
       [ ("invalid_method", "Invalid combination of shipment and invoicing methods.");
         ("warehouse_required", "Warehouse must be defined for quotation.") ];
     send_request := example_service;
     Decimal_of_string := plain_decimal |}.

(** The same world with another list of mail classes and carriers. *)
Definition world_with (mcs : list Mailclass) (cs : list Carrier) : World :=
  {| uoms := uoms example_world;
     currencies := currencies example_world;
     carriers := cs;
     mailclasses := mcs;
     compute_qty := compute_qty example_world;
     Currency_compute := Currency_compute example_world;
     get_sale_price := get_sale_price example_world;
     _get_endicia_mailclass_name := _get_endicia_mailclass_name example_world;
     endicia_configuration := endicia_configuration example_world;
     sale_error_messages := sale_error_messages example_world;
     send_request := send_request example_world;
     Decimal_of_string := Decimal_of_string example_world |}.

(** A world whose conversion rounds to whole cents of a currency worth
    100000 USD, and whose carrier quotes 0 or 5 USD. *)
Definition round_cents (a : Q) : Q :=
  inject_Z (Qfloor (a * 100 + (1 # 2))) / 100.

Definition world_priced (price : option Decimal) (rate : Q) : World :=
  {| uoms := uoms example_world;
     currencies := currencies example_world;
     carriers := carriers example_world;
     mailclasses := mailclasses example_world;
     compute_qty := compute_qty example_world;
     Currency_compute := fun from_currency a to_currency =>
       if Nat.eqb (currency_id from_currency) (currency_id to_currency)
       then round_cents a else round_cents (a * rate);
     get_sale_price := fun _ => Ok (price, 1%nat);
     _get_endicia_mailclass_name := _get_endicia_mailclass_name example_world;
     endicia_configuration := endicia_configuration example_world;
     sale_error_messages := sale_error_messages example_world;
     send_request := send_request example_world;
     Decimal_of_string := Decimal_of_string example_world |}.

Definition example_sale (c : option Carrier) (mc : option Mailclass)
    (cur : Currency) (ls : list SaleLine) : Sale :=
  {| sale_id := 1; carrier := c; endicia_mailclass := mc; currency := cur;
     lines := ls; warehouse := Some depot;
     shipment_address := Some customer_address |}.

Definition old_shipping_line : SaleLine :=
  {| line_id := 7; line_type := "line"; product := Some postage;
     description := "Priority Mail"; quantity := Some 1; unit := each;
     unit_price := 4; shipment_cost := Some 4; amount := 4; taxes := [];
     sequence := 9999%Z |}.


(** A sale of one letter, without a selected mail class. *)
Definition letter_sale : Sale :=
  example_sale (Some usps) None USD [line_of 1 letter 1].

(** The request built for [letter_sale] and the Express mail class. *)
Definition express_request : Request :=
  {| req_mailclass := "Express"; req_weightoz := 2;
     req_from_postal_code := "33139"; req_to_postal_code := "10001";
     req_to_country_code := "US"; req_accountid := "123456";
     req_requesterid := "lxxx"; req_passphrase := "secret"; req_test := true |}.

(** Sales with a selected mail class and a shipping line from before. *)
Definition priority_sale : Sale :=
  example_sale (Some usps) (Some priority) USD
    [line_of 1 letter 1; old_shipping_line].

Definition xbt_sale : Sale :=
  example_sale (Some usps) (Some priority) XBT
    [line_of 1 letter 1; old_shipping_line].

Definition courier_sale : Sale :=
  example_sale (Some courier) (Some priority) USD
    [line_of 1 letter 1; old_shipping_line].

Definition shopping_world : World := world_with [priority; express; first_class] [usps].
Definition parcel_world : World := world_with [priority; parcel; first_class] [usps].
Definition no_carrier_world : World := world_with [priority] [courier].
Definition two_carrier_world : World := world_with [priority] [usps; courier; usps].

Definition free_world : World := world_priced (Some 0) 1.
Definition five_usd_world : World := world_priced (Some 5) 1.
Definition strong_currency_world : World := world_priced (Some 5) (1 # 100000).

(** A sale whose second line has a product of weight zero. *)
Definition ghost_sale : Sale :=
  example_sale (Some usps) (Some priority) USD
    [line_of 1 letter 1; line_of 5 ghost 1; line_of 2 anvil 2].

(** A service that answers without an amount, with an amount that is not a
    number, or not at all. *)
Definition odd_service (r : Request) : send_outcome :=
  if String.eqb (req_mailclass r) "Priority"
  then Responded {| TotalAmount := None |}
  else if String.eqb (req_mailclass r) "First"
  then Responded {| TotalAmount := Some "five" |}
  else TransportFailure "URLError".

(** A world with another service, another unit table and another currency
    table. *)
Definition world_of (service : Request -> send_outcome) (us : list Uom)
    (curs : list Currency) : World :=
  {| uoms := us;
     currencies := curs;
     carriers := carriers example_world;
     mailclasses := mailclasses example_world;
     compute_qty := compute_qty example_world;
     Currency_compute := Currency_compute example_world;
     get_sale_price := get_sale_price example_world;
     _get_endicia_mailclass_name := _get_endicia_mailclass_name example_world;
     endicia_configuration := endicia_configuration example_world;
     sale_error_messages := sale_error_messages example_world;
     send_request := service;
     Decimal_of_string := Decimal_of_string example_world |}.

(** A service whose error text is a key of the messages of the sale. *)
Definition key_service (r : Request) : send_outcome :=
  ServiceError "mailclass_missing".

Definition key_world : World := world_of key_service [oz; lb; each] [USD; XBT].

Definition odd_world : World := world_of odd_service [oz; lb; each] [USD; XBT].
Definition no_ounce_world : World := world_of example_service [lb; each] [USD; XBT].
Definition no_usd_world : World := world_of example_service [oz; lb; each] [XBT].

Definition request_for (mailclass : string) : Request :=
  {| req_mailclass := mailclass; req_weightoz := 2;
     req_from_postal_code := "33139"; req_to_postal_code := "10001";
     req_to_country_code := "US"; req_accountid := "123456";
     req_requesterid := "lxxx"; req_passphrase := "secret"; req_test := true |}.

(** Two shipments as the inherited [create_shipment] returns them. *)
Definition example_shipments : list Shipment :=
  [ {| shipment_id := 11; shipment_endicia_mailclass := None;
       shipment_is_endicia_shipping := false |};
    {| shipment_id := 12; shipment_endicia_mailclass := Some 9%nat;
       shipment_is_endicia_shipping := false |} ].

Definition example_create_shipment (shipment_type : string)
    : result (option (list Shipment)) :=
  if String.eqb shipment_type "out" then Ok (Some example_shipments)
  else Ok None.

Definition example_context : dict context_value :=
  [ ("company", ctx_id 1); ("sale", ctx_id 99); ("language", ctx_str "en_US") ].

Definition example_configuration : Configuration :=
  {| configured_mailclass := Some first_class;
     endicia_label_subtype := default_endicia_label_subtype;
     endicia_integrated_form_type := default_endicia_integrated_form_type;
     endicia_include_postage := false;
     endicia_package_type := default_endicia_package_type |}.

Definition failing_world : World := world_with [unnamed; express] [usps].
Definition succeeding_world : World := world_with [priority; first_class] [usps].

(** A second sale, shipped with endicia and without a selected mail class. *)
Definition unselected_sale : Sale :=
  {| sale_id := 2; carrier := Some usps; endicia_mailclass := None;
     currency := USD; lines := [line_of 3 letter 2]; warehouse := Some depot;
     shipment_address := Some customer_address |}.

(** A third sale, with another carrier. *)
Definition third_sale : Sale :=
  {| sale_id := 3; carrier := Some courier; endicia_mailclass := None;
     currency := USD; lines := [line_of 4 anvil 1]; warehouse := Some depot;
     shipment_address := Some customer_address |}.

(** * Properties *)

(** ** Results and the request monad *)

Lemma rmap_raise {A B} (f : A -> result B) (xs : list A) (e : exn) :
  rmap f xs = Raise e -> exists x, In x xs /\ f x = Raise e.
Proof.
  induction xs as [|x xs IH]; simpl; intro H.
  - discriminate.
  - destruct (f x) as [y|e'] eqn:Hx; simpl in H.
    + destruct (rmap f xs) as [ys|e'']; simpl in H; [discriminate|].
      destruct (IH H) as (x' & Hin & Hx'). exists x'. auto.
    + inversion H; subst. exists x. auto.
Qed.

Lemma unpack1_raise {A} (xs : list A) (e : exn) :
  unpack1 xs = Raise e -> e = ValueError.
Proof.
  destruct xs as [|x [|y xs]]; simpl; intro H; inversion H; reflexivity.
Qed.

Lemma unpack1_not_singleton {A} (xs : list A) :
  List.length xs <> 1%nat -> unpack1 xs = Raise ValueError.
Proof.
  destruct xs as [|x [|y xs]]; simpl; intro H; try reflexivity.
  exfalso. apply H. reflexivity.
Qed.

Lemma nonzero_true (d : Q) : nonzero d = true <-> ~ d == 0.
Proof.
  unfold nonzero. rewrite negb_true_iff. split.
  - apply Qeq_bool_neq.
  - intro H. destruct (Qeq_bool d 0) eqn:E; [|reflexivity].
    exfalso. apply H. apply Qeq_bool_iff. exact E.
Qed.

Lemma nonzero_false (d : Q) : nonzero d = false <-> d == 0.
Proof.
  unfold nonzero. rewrite negb_false_iff. apply Qeq_bool_iff.
Qed.

Lemma Qle_bool_false (x y : Q) : Qle_bool x y = false <-> y < x.
Proof.
  split.
  - intro H. apply Qnot_le_lt. intro Hle.
    apply Qle_bool_iff in Hle. congruence.
  - intro H. destruct (Qle_bool x y) eqn:E; [|reflexivity].
    apply Qle_bool_iff in E. exfalso. exact (Qlt_not_le _ _ H E).
Qed.

Lemma append_empty_r (s : string) : (s ++ "")%string = s.
Proof.
  induction s as [|c s IH]; simpl; [reflexivity|]. rewrite IH. reflexivity.
Qed.

Lemma weight_required_message (n : string) :
  user_error_message (MissingWeightError n)
  = ("Weight is missing on the product " ++ n)%string.
Proof.
  unfold user_error_message, MissingWeightError, raise_user_error_text.
  simpl. rewrite append_empty_r. reflexivity.
Qed.

Lemma MissingWeightError_not_MailClassMissingError (n : string) :
  MissingWeightError n <> MailClassMissingError.
Proof.
  pose proof (weight_required_message n) as H. unfold user_error_message in H.
  rewrite H. discriminate.
Qed.

Lemma lookup_message_not_key (key : string) (table : list (string * string)) :
  (forall text, ~ In (key, text) table) -> lookup_message key table = key.
Proof.
  induction table as [|[k m] table IH]; simpl; intro H; [reflexivity|].
  destruct (String.eqb k key) eqn:Hk.
  - exfalso. apply String.eqb_eq in Hk. subst k. apply (H m). left. reflexivity.
  - apply IH. intros text Hin. apply (H text). right. exact Hin.
Qed.

(** ** The weight of a line *)

Section Weight.

Variable w : World.

(** The only exceptions of the weight computation: a missing weight, or an
    ounce unit that does not resolve to one record. *)
Lemma get_weight_for_endicia_raise (line : SaleLine) (e : exn) :
  get_weight_for_endicia w line = Raise e ->
  e = ValueError \/ exists n, e = UserError (MissingWeightError n).
Proof.
  unfold get_weight_for_endicia.
  destruct (product line) as [p|]; [|discriminate].
  destruct (String.eqb (product_type p) "service"); [discriminate|].
  destruct (quantity line) as [q|]; [|discriminate].
  destruct (Qle_bool q 0); [discriminate|].
  destruct (weight p) as [pw|].
  - destruct (negb (nonzero pw)).
    + intro H; inversion H. right. eauto.
    + destruct (negb (String.eqb (symbol (weight_uom p)) "oz")); simpl.
      * destruct (unpack1 (ProductUom_search_symbol w "oz")) as [u|e'] eqn:Hu;
          simpl; [discriminate|].
        intro H; inversion H; subst. left. eapply unpack1_raise; eauto.
      * discriminate.
  - intro H; inversion H. right. eauto.
Qed.

(** C4. A line without product, with a service product, or with a quantity
    that is zero or negative weighs [Decimal(0)], whatever the other
    attributes of the product are: the weight of the product is not even
    read, so an unset weight does not raise. *)
Theorem get_weight_for_endicia_zero (line : SaleLine) :
  (product line = None
   \/ (exists p, product line = Some p /\ product_type p = "service")
   \/ (exists q, quantity line = Some q /\ q <= 0)) ->
  get_weight_for_endicia w line = Ok 0.
Proof.
  intros [Hp | [(p & Hp & Ht) | (q & Hq & Hle)]]; unfold get_weight_for_endicia.
  - rewrite Hp. reflexivity.
  - rewrite Hp, Ht. reflexivity.
  - rewrite Hq. destruct (product line) as [p|]; [|reflexivity].
    destruct (String.eqb (product_type p) "service"); [reflexivity|].
    apply Qle_bool_iff in Hle. rewrite Hle. reflexivity.
Qed.

(** C6. On a line with a physical product and a positive quantity, an unset
    or zero weight raises the missing-weight error, whose message ends with
    the name of the product; a weight that is not zero never raises it. *)
Theorem get_weight_for_endicia_missing_weight (line : SaleLine) (p : Product) (q : Q) :
  product line = Some p ->
  product_type p <> "service" ->
  quantity line = Some q ->
  0 < q ->
  ((weight p = None \/ exists pw, weight p = Some pw /\ pw == 0) ->
     get_weight_for_endicia w line
       = Raise (UserError (MissingWeightError (product_name p)))
     /\ user_error_message (MissingWeightError (product_name p))
        = ("Weight is missing on the product " ++ product_name p)%string)
  /\ ((exists pw, weight p = Some pw /\ ~ pw == 0) ->
        forall n, get_weight_for_endicia w line
                  <> Raise (UserError (MissingWeightError n))).
Proof.
  intros Hp Ht Hq Hpos.
  apply String.eqb_neq in Ht. apply Qle_bool_false in Hpos.
  unfold get_weight_for_endicia. rewrite Hp, Ht, Hq, Hpos.
  split.
  - intros [Hw | (pw & Hw & Hz)]; rewrite Hw.
    + split; [reflexivity | apply weight_required_message].
    + apply nonzero_false in Hz. rewrite Hz.
      split; [reflexivity | apply weight_required_message].
  - intros (pw & Hw & Hnz) n. rewrite Hw.
    apply nonzero_true in Hnz. rewrite Hnz. simpl.
    destruct (negb (String.eqb (symbol (weight_uom p)) "oz")); simpl.
    + destruct (unpack1 (ProductUom_search_symbol w "oz")) as [u|e] eqn:Hu; simpl.
      * discriminate.
      * apply unpack1_raise in Hu. subst e. discriminate.
    + discriminate.
Qed.






End Weight.

(** ** The cost of one mail class *)

Section ShippingCost.

Variable w : World.
Variable self : Sale.

(** The three ways a request can end. *)
Lemma get_endicia_shipping_cost_no_request (mailclass : option string) (e : exn)
    (log : list Request) :
  calculate_postage_request w self mailclass = Raise e ->
  get_endicia_shipping_cost w self mailclass log = (Raise e, log).
Proof.
  intro H. unfold get_endicia_shipping_cost, bind, lift. rewrite H. reflexivity.
Qed.

Lemma get_endicia_shipping_cost_sent (mailclass : option string) (request : Request)
    (log : list Request) :
  calculate_postage_request w self mailclass = Ok request ->
  get_endicia_shipping_cost w self mailclass log
  = (match send_request w request with
     | Responded response => parse_total_amount w response
     | ServiceError message => Raise (UserError (CarrierRequestError w message))
     | TransportFailure n => Raise (Exception n)
     end, log ++ [request]).
Proof.
  intro H.
  unfold get_endicia_shipping_cost, bind, lift, try_except, do_send_request, raise.
  rewrite H. destruct (send_request w request); reflexivity.
Qed.

(** A call sends at most one request, and what it returns and sends does
    not depend on the requests sent before. *)
Lemma get_endicia_shipping_cost_log (mailclass : option string) (log : list Request) :
  get_endicia_shipping_cost w self mailclass log
  = (fst (get_endicia_shipping_cost w self mailclass []),
     log ++ snd (get_endicia_shipping_cost w self mailclass [])).
Proof.
  destruct (calculate_postage_request w self mailclass) as [request|e] eqn:H.
  - rewrite !(get_endicia_shipping_cost_sent _ _ H). reflexivity.
  - rewrite !(get_endicia_shipping_cost_no_request _ _ H). simpl.
    rewrite app_nil_r. reflexivity.
Qed.

Lemma get_endicia_shipping_cost_at_most_one (mailclass : option string)
    (log : list Request) :
  (List.length (snd (get_endicia_shipping_cost w self mailclass log))
   <= S (List.length log))%nat.
Proof.
  destruct (calculate_postage_request w self mailclass) as [request|e] eqn:H.
  - rewrite (get_endicia_shipping_cost_sent _ _ H). simpl.
    rewrite length_app. simpl. lia.
  - rewrite (get_endicia_shipping_cost_no_request _ _ H). simpl. lia.
Qed.

Lemma zip5_raise (a : option Address) (e : exn) :
  zip5 a = Raise e -> e = AttributeError \/ e = TypeError.
Proof.
  unfold zip5. destruct a as [a|]; [destruct (zip a)|];
    intro H; inversion H; auto.
Qed.

(** The request is refused for a missing mail class exactly when no mail
    class is passed and none is selected on the sale. *)
Lemma calculate_postage_request_mailclass_missing (mailclass : option string) :
  calculate_postage_request w self mailclass = Raise (UserError MailClassMissingError)
  <-> truthy_string mailclass = false /\ endicia_mailclass self = None.
Proof.
  unfold calculate_postage_request. split.
  - destruct (truthy_string mailclass) eqn:Hm;
      destruct (endicia_mailclass self) as [mc|] eqn:Hs; simpl; auto; intro H;
      exfalso.
    all: destruct (_get_ship_from_address self) as [a|e1] eqn:H1; simpl in H;
      [|unfold _get_ship_from_address in H1; destruct (warehouse self);
        congruence].
    all: destruct (mailclass_or_selected mailclass _) as [m'|e2] eqn:H2;
      simpl in H;
      [|unfold mailclass_or_selected in H2; rewrite ?Hm in H2;
        destruct mailclass; congruence].
    all: destruct (rmap (get_weight_for_endicia w) (lines self)) as [ws|e3] eqn:H3;
      simpl in H;
      [|inversion H; subst e3; apply rmap_raise in H3;
        destruct H3 as (l & _ & Hl);
        apply get_weight_for_endicia_raise in Hl;
        destruct Hl as [Hl | (n & Hl)]; discriminate].
    all: destruct (zip5 a) as [z1|e4] eqn:H4; simpl in H;
      [|inversion H; subst e4; apply zip5_raise in H4; destruct H4; discriminate].
    all: destruct (zip5 (shipment_address self)) as [z2|e5] eqn:H5; simpl in H;
      [|inversion H; subst e5; apply zip5_raise in H5; destruct H5; discriminate].
    all: unfold address_country_code in H;
      destruct (shipment_address self) as [sa|]; simpl in H; [|discriminate];
      destruct (country sa); simpl in H; discriminate.
  - intros [Hm Hs]. rewrite Hm, Hs. reflexivity.
Qed.

Lemma app_one_neq {A} (log : list A) (x : A) : log ++ [x] <> log.
Proof.
  intro H. apply (f_equal (@List.length A)) in H.
  rewrite length_app in H. simpl in H. lia.
Qed.

(** C7, as amended.  The call fails with the missing-mail-class error
    before any request is sent if and only if the argument is [None] or
    empty and the sale has no mail class selected.  With an argument that
    is not empty, or a mail class selected, the check is passed: a
    [UserError] with the same message can then only come after the request,
    from an error of the service whose text looks up to this message. *)
Theorem get_endicia_shipping_cost_mailclass_missing (mailclass : option string)
    (log : list Request) :
  (get_endicia_shipping_cost w self mailclass log
   = (Raise (UserError MailClassMissingError), log)
   <-> truthy_string mailclass = false /\ endicia_mailclass self = None)
  /\ (forall log',
        truthy_string mailclass = true \/ endicia_mailclass self <> None ->
        get_endicia_shipping_cost w self mailclass log
        = (Raise (UserError MailClassMissingError), log') ->
        exists request message,
          calculate_postage_request w self mailclass = Ok request
          /\ send_request w request = ServiceError message
          /\ CarrierRequestError w message = MailClassMissingError
          /\ log' = log ++ [request]).
Proof.
  assert (forall log',
            get_endicia_shipping_cost w self mailclass log
            = (Raise (UserError MailClassMissingError), log') ->
            (truthy_string mailclass = false /\ endicia_mailclass self = None
             /\ log' = log)
            \/ exists request message,
                 calculate_postage_request w self mailclass = Ok request
                 /\ send_request w request = ServiceError message
                 /\ CarrierRequestError w message = MailClassMissingError
                 /\ log' = log ++ [request]) as Hcases.
  { intros log' H.
    destruct (calculate_postage_request w self mailclass) as [request|e] eqn:Hr.
    - rewrite (get_endicia_shipping_cost_sent _ _ Hr) in H.
      right. injection H as H1 H2.
      destruct (send_request w request) as [response|message|n] eqn:Hs.
      + exfalso. unfold parse_total_amount in H1.
        destruct (TotalAmount response) as [literal|]; [|discriminate].
        destruct (Decimal_of_string w literal); discriminate.
      + exists request, message. injection H1 as H1. auto.
      + discriminate.
    - rewrite (get_endicia_shipping_cost_no_request _ _ Hr) in H.
      left. injection H as H1 H2. subst e.
      apply calculate_postage_request_mailclass_missing in Hr.
      destruct Hr as [Hm Hs]. subst log'. auto. }
  split; [split|].
  - intro H. destruct (Hcases log H)
      as [(Hm & Hs & _) | (request & message & _ & _ & _ & Hl)]; [auto|].
    exfalso. symmetry in Hl. exact (@app_one_neq _ log request Hl).
  - intro H. apply get_endicia_shipping_cost_no_request.
    apply calculate_postage_request_mailclass_missing. exact H.
  - intros log' Hres H. destruct (Hcases log' H) as [(Hm & Hs & _) | Hsent];
      [|exact Hsent].
    exfalso. destruct Hres as [Ht | Hn]; congruence.
Qed.

(** C9, as amended.  Once the request is built: when the service reports
    an error, the call fails with the [UserError] that [raise_user_error]
    builds from the text of the service, and the log has grown by this one
    request; the message of the error is the text of the service when this
    text is no key of the messages of the sale.  When the service responds,
    the call returns the total amount of the response, parsed as a decimal,
    after the same single request. *)
Theorem get_endicia_shipping_cost_single_attempt (mailclass : option string)
    (request : Request) (log : list Request) :
  calculate_postage_request w self mailclass = Ok request ->
  (forall message,
     send_request w request = ServiceError message ->
     get_endicia_shipping_cost w self mailclass log
     = (Raise (UserError (CarrierRequestError w message)), log ++ [request])
     /\ ((forall text, ~ In (message, text) (Sale_error_messages w)) ->
         user_error_message (CarrierRequestError w message) = message))
  /\ (forall response literal d,
        send_request w request = Responded response ->
        TotalAmount response = Some literal ->
        Decimal_of_string w literal = Some d ->
        get_endicia_shipping_cost w self mailclass log = (Ok d, log ++ [request])).
Proof.
  intro Hr. split.
  - intros message Hs. rewrite (get_endicia_shipping_cost_sent _ _ Hr), Hs.
    split; [reflexivity|]. intro Hkey.
    unfold user_error_message, CarrierRequestError, raise_user_error_text.
    apply lookup_message_not_key. exact Hkey.
  - intros response literal d Hs Ht Hd.
    rewrite (get_endicia_shipping_cost_sent _ _ Hr), Hs.
    unfold parse_total_amount. rewrite Ht, Hd. reflexivity.
Qed.

End ShippingCost.

(** ** Rate shopping *)

Section RateShopping.

Variable w : World.
Variable self : Sale.

Lemma quote_step (mailclass : Mailclass) (log : list Request) :
  get_endicia_shipping_cost w self (Some (value mailclass)) log
  = (quote w self mailclass, log ++ quote_requests w self mailclass).
Proof.
  unfold quote, quote_requests. apply get_endicia_shipping_cost_log.
Qed.


Lemma goes_on_raise (silent : bool) (e : exn) :
  goes_on silent (@Raise Decimal e) = false <->
  is_UserError e = false \/ silent = false.
Proof.
  unfold goes_on. destruct silent; simpl; split; auto.
  intros [H|H]; [exact H | discriminate].
Qed.

Section WithCarrier.

Variable c : Carrier.
Variable usd : Currency.
Hypothesis usd_unique : Currency_search_code w "USD" = [usd].

Lemma _make_endicia_rate_line_ok (mailclass : Mailclass) (cost : Decimal) :
  _make_endicia_rate_line w self c mailclass cost
  = Ok (rate_option w c usd mailclass cost).
Proof.
  unfold _make_endicia_rate_line. rewrite usd_unique. reflexivity.
Qed.

(** The loop when it goes on after every mail class: the quotes that
    succeeded are appended, in the order of the iteration. *)
Lemma shipping_rates_loop_completes (silent : bool) (pending : list Mailclass) :
  (forall m, In m pending -> goes_on silent (quote w self m) = true) ->
  forall rate_lines log,
    shipping_rates_loop w self c silent pending rate_lines log
    = (Ok (rate_lines ++ quoted_options w self c usd pending),
       log ++ requests_of w self pending).
Proof.
  induction pending as [|m pending IH]; intros Hall rate_lines log.
  - simpl. unfold ret. rewrite !app_nil_r. reflexivity.
  - simpl. rewrite quote_step.
    assert (goes_on silent (quote w self m) = true) as Hm
      by (apply Hall; left; reflexivity).
    assert (forall x, In x pending -> goes_on silent (quote w self x) = true)
      as Hrest by (intros x Hx; apply Hall; right; exact Hx).
    unfold requests_of; simpl; fold (requests_of w self pending).
    destruct (quote w self m) as [cost|e] eqn:Hq.
    + unfold bind, lift. rewrite _make_endicia_rate_line_ok.
      rewrite (IH Hrest). rewrite <- !app_assoc. reflexivity.
    + unfold goes_on in Hm. destruct silent; simpl in Hm; [|discriminate].
      rewrite Hm. simpl. rewrite (IH Hrest). rewrite <- !app_assoc. reflexivity.
Qed.

(** The loop when a quote raises an exception it does not go on after: the
    exception leaves the loop, and no later mail class is quoted. *)
Lemma shipping_rates_loop_stops (silent : bool) (pre post : list Mailclass)
    (m : Mailclass) (e : exn) :
  (forall x, In x pre -> goes_on silent (quote w self x) = true) ->
  quote w self m = Raise e ->
  goes_on silent (@Raise Decimal e) = false ->
  forall rate_lines log,
    shipping_rates_loop w self c silent (pre ++ m :: post) rate_lines log
    = (Raise e, log ++ requests_of w self (pre ++ [m])).
Proof.
  induction pre as [|x pre IH]; intros Hpre Hm He rate_lines log.
  - simpl. rewrite quote_step, Hm.
    unfold requests_of. simpl. rewrite app_nil_r.
    apply goes_on_raise in He.
    destruct (is_UserError e) eqn:Hu; [|reflexivity].
    destruct He as [He|He]; [discriminate|]. rewrite He. reflexivity.
  - simpl. rewrite quote_step.
    assert (goes_on silent (quote w self x) = true) as Hx
      by (apply Hpre; left; reflexivity).
    assert (forall y, In y pre -> goes_on silent (quote w self y) = true)
      as Hrest by (intros y Hy; apply Hpre; right; exact Hy).
    unfold requests_of; simpl; fold (requests_of w self (pre ++ [m])).
    destruct (quote w self x) as [cost|e'] eqn:Hq.
    + unfold bind, lift. rewrite _make_endicia_rate_line_ok.
      rewrite (IH Hrest Hm He). rewrite <- !app_assoc. reflexivity.
    + unfold goes_on in Hx. destruct silent; simpl in Hx; [|discriminate].
      rewrite Hx. simpl. rewrite (IH Hrest Hm He). rewrite <- !app_assoc.
      reflexivity.
Qed.

Hypothesis carrier_unique : Carrier_search_cost_method w "endicia" = [c].

Lemma filter_truthy_rate_line (rs : list RateLine) :
  filter truthy_rate_line rs = rs.
Proof.
  induction rs as [|r rs IH]; simpl; [reflexivity|]. rewrite IH. reflexivity.
Qed.

Lemma get_endicia_shipping_rates_completes (silent : bool) (log : list Request) :
  (forall m, In m (_get_endicia_mail_classes w self) ->
             goes_on silent (quote w self m) = true) ->
  get_endicia_shipping_rates w self silent log
  = (Ok (quoted_options w self c usd (_get_endicia_mail_classes w self)),
     log ++ requests_of w self (_get_endicia_mail_classes w self)).
Proof.
  intro Hall. unfold get_endicia_shipping_rates, bind, lift.
  rewrite carrier_unique. simpl.
  erewrite shipping_rates_loop_completes; eauto. simpl.
  unfold ret. rewrite filter_truthy_rate_line. reflexivity.
Qed.

Lemma get_endicia_shipping_rates_stops (silent : bool) (pre post : list Mailclass)
    (m : Mailclass) (e : exn) (log : list Request) :
  _get_endicia_mail_classes w self = pre ++ m :: post ->
  (forall x, In x pre -> goes_on silent (quote w self x) = true) ->
  quote w self m = Raise e ->
  goes_on silent (@Raise Decimal e) = false ->
  get_endicia_shipping_rates w self silent log
  = (Raise e, log ++ requests_of w self (pre ++ [m])).
Proof.
  intros Hmc Hpre Hm He. unfold get_endicia_shipping_rates, bind, lift.
  rewrite carrier_unique. simpl. rewrite Hmc.
  erewrite shipping_rates_loop_stops; eauto.
Qed.

End WithCarrier.


(** C2, as amended.  With one endicia carrier and one USD currency, the
    silent call swallows every [UserError] raised while a mail class is
    quoted, whatever its kind: the missing mail class, the missing weight
    and the error reported by the remote service alike.  An exception that
    is not a [UserError] leaves the call at once: the mail classes after it
    are not quoted. *)
Theorem get_endicia_shipping_rates_silent (c : Carrier) (usd : Currency)
    (log : list Request) :
  Carrier_search_cost_method w "endicia" = [c] ->
  Currency_search_code w "USD" = [usd] ->
  ((forall m, In m (_get_endicia_mail_classes w self) ->
              (exists cost, quote w self m = Ok cost)
              \/ (exists u, quote w self m = Raise (UserError u))) ->
   get_endicia_shipping_rates w self true log
   = (Ok (quoted_options w self c usd (_get_endicia_mail_classes w self)),
      log ++ requests_of w self (_get_endicia_mail_classes w self)))
  /\ (forall pre m post e,
        _get_endicia_mail_classes w self = pre ++ m :: post ->
        (forall x, In x pre -> is_Ok_or_UserError (quote w self x) = true) ->
        quote w self m = Raise e ->
        is_UserError e = false ->
        get_endicia_shipping_rates w self true log
        = (Raise e, log ++ requests_of w self (pre ++ [m]))).
Proof.
  intros Hc Hu. split.
  - intro Hall.
    eapply get_endicia_shipping_rates_completes; eauto.
    intros m Hm. simpl.
    destruct (Hall m Hm) as [(cost & H) | (u & H)]; rewrite H; reflexivity.
  - intros pre m post e Hmc Hpre Hm He.
    eapply get_endicia_shipping_rates_stops; eauto.
Qed.

(** C10. When the search for the carriers whose cost method is 'endicia'
    does not return exactly one carrier, the call fails in the unpacking of
    the search result, silent or not, and no request has been sent. *)
Theorem get_endicia_shipping_rates_needs_one_carrier (silent : bool)
    (log : list Request) :
  List.length (Carrier_search_cost_method w "endicia") <> 1%nat ->
  get_endicia_shipping_rates w self silent log = (Raise ValueError, log).
Proof.
  intro H. unfold get_endicia_shipping_rates, bind, lift.
  rewrite (unpack1_not_singleton _ H). reflexivity.
Qed.

End RateShopping.

(** ** Applying the shipping cost *)

Lemma fresh_line_id_above (ls : list SaleLine) (l : SaleLine) :
  In l ls -> (line_id l < fresh_line_id ls)%nat.
Proof.
  unfold fresh_line_id. induction ls as [|x ls IH]; simpl; intro H.
  - contradiction.
  - destruct H as [H|H].
    + subst x. lia.
    + specialize (IH H). lia.
Qed.

Lemma delete_lines_app (records xs ys : list SaleLine) :
  delete_lines records (xs ++ ys)
  = delete_lines records xs ++ delete_lines records ys.
Proof.
  unfold delete_lines. apply filter_app.
Qed.

(** Deleting the shipment-cost lines leaves no shipment-cost line. *)
Lemma delete_shipment_cost_lines (ls : list SaleLine) :
  filter is_shipment_cost_line
    (delete_lines (filter is_shipment_cost_line ls) ls) = [].
Proof.
  assert (forall xs records,
            (forall l, In l xs -> is_shipment_cost_line l = true -> In l records) ->
            filter is_shipment_cost_line (delete_lines records xs) = []) as H.
  { induction xs as [|x xs IH]; intros records Hin; [reflexivity|].
    unfold delete_lines. simpl. fold (delete_lines records xs).
    assert (filter is_shipment_cost_line (delete_lines records xs) = []) as Hxs
      by (apply IH; intros l Hl; apply Hin; right; exact Hl).
    destruct (existsb (fun r => Nat.eqb (line_id r) (line_id x)) records) eqn:He;
      simpl; [exact Hxs|].
    destruct (is_shipment_cost_line x) eqn:Hs; [|exact Hxs].
    exfalso.
    assert (existsb (fun r => Nat.eqb (line_id r) (line_id x)) records = true)
      as Ht.
    { apply existsb_exists. exists x. split.
      - apply Hin; [left; reflexivity | exact Hs].
      - apply Nat.eqb_refl. }
    congruence. }
  apply H. intros l Hl Hs. apply filter_In. auto.
Qed.

(** A line with a fresh id is not among the lines to delete. *)
Lemma delete_keeps_fresh (ls records : list SaleLine) (v : SaleLine) :
  (forall r, In r records -> In r ls) ->
  delete_lines records [with_line_id (fresh_line_id ls) v]
  = [with_line_id (fresh_line_id ls) v].
Proof.
  intro Hsub. unfold delete_lines. simpl.
  destruct (existsb _ records) eqn:He; [|reflexivity].
  exfalso. apply existsb_exists in He. destruct He as (r & Hr & Hid).
  apply Nat.eqb_eq in Hid. simpl in Hid.
  pose proof (fresh_line_id_above ls r (Hsub r Hr)). lia.
Qed.

(** The lines that are not deleted keep their place when no two lines share
    an id. *)
Lemma delete_keeps_other_lines (ls : list SaleLine) :
  NoDup (map line_id ls) ->
  filter (fun l => negb (is_shipment_cost_line l))
    (delete_lines (filter is_shipment_cost_line ls) ls)
  = filter (fun l => negb (is_shipment_cost_line l)) ls.
Proof.
  intro Hnd.
  assert (forall l, In l ls -> is_shipment_cost_line l = false ->
            existsb (fun r => Nat.eqb (line_id r) (line_id l))
              (filter is_shipment_cost_line ls) = false) as Hkeep.
  { intros l Hl Hs.
    destruct (existsb _ (filter is_shipment_cost_line ls)) eqn:He; [|reflexivity].
    exfalso. apply existsb_exists in He. destruct He as (r & Hr & Hid).
    apply filter_In in Hr. destruct Hr as [Hr Hrs].
    apply Nat.eqb_eq in Hid.
    assert (r = l) as Heq.
    { clear - Hnd Hr Hl Hid. induction ls as [|x ls IH]; [contradiction|].
      simpl in Hnd. inversion Hnd as [|? ? Hx Hnd']; subst.
      destruct Hr as [Hr|Hr], Hl as [Hl|Hl]; subst.
      - reflexivity.
      - exfalso. apply Hx. rewrite Hid. apply in_map. exact Hl.
      - exfalso. apply Hx. rewrite <- Hid. apply in_map. exact Hr.
      - apply IH; assumption. }
    subst r. congruence. }
  revert Hkeep. generalize (filter is_shipment_cost_line ls) as records.
  intros records Hkeep. unfold delete_lines.
  induction ls as [|x ls IH]; [reflexivity|].
  simpl in Hnd. inversion Hnd as [|? ? Hx Hnd']; subst.
  assert (forall l, In l ls -> is_shipment_cost_line l = false ->
            existsb (fun r => Nat.eqb (line_id r) (line_id l)) records = false)
    as Hrest by (intros l Hl; apply Hkeep; right; exact Hl).
  simpl. destruct (is_shipment_cost_line x) eqn:Hs; simpl.
  - destruct (existsb _ records); simpl; rewrite ?Hs; simpl; apply IH; assumption.
  - rewrite (Hkeep x (or_introl eq_refl) Hs). simpl. rewrite Hs. simpl.
    f_equal. apply IH; assumption.
Qed.

Section ApplyShipping.

Variable w : World.
Variable self : Sale.

(** The written sale, when the carrier is endicia, a mail class is selected,
    the price is not zero and USD resolves to one currency. *)
Lemma apply_endicia_shipping_writes (c : Carrier) (mc : Mailclass)
    (cost : Decimal) (k : nat) (usd : Currency) :
  carrier self = Some c ->
  carrier_cost_method c = "endicia" ->
  endicia_mailclass self = Some mc ->
  get_sale_price w self = Ok (Some cost, k) ->
  ~ cost == 0 ->
  Currency_search_code w "USD" = [usd] ->
  apply_endicia_shipping w self
  = Ok (Sale_write_lines self
          [ create [shipping_line_values c mc
                      (Currency_compute w usd cost (currency self))];
            delete (filter is_shipment_cost_line (lines self)) ]).
Proof.
  intros Hc Hm Hmc Hp Hnz Hu. unfold apply_endicia_shipping.
  rewrite Hc, Hm, Hmc, Hp. simpl.
  apply nonzero_true in Hnz. rewrite Hnz, Hu. reflexivity.
Qed.

(** The shipment-cost lines of the written sale: the new line alone. *)
Lemma written_shipment_cost_lines (c : Carrier) (mc : Mailclass) (d : Decimal) :
  ~ d == 0 ->
  shipment_cost_lines
    (Sale_write_lines self
       [ create [shipping_line_values c mc d];
         delete (filter is_shipment_cost_line (lines self)) ])
  = [with_line_id (fresh_line_id (lines self)) (shipping_line_values c mc d)].
Proof.
  intro Hd. unfold shipment_cost_lines, Sale_write_lines. simpl.
  rewrite delete_lines_app, filter_app, delete_shipment_cost_lines.
  rewrite delete_keeps_fresh
    by (intros r Hr; apply filter_In in Hr; tauto).
  simpl. unfold is_shipment_cost_line. simpl.
  apply nonzero_true in Hd. rewrite Hd. reflexivity.
Qed.

(** The lines that are not shipment-cost lines are kept by the write. *)
Lemma written_other_lines (c : Carrier) (mc : Mailclass) (d : Decimal) :
  ~ d == 0 ->
  NoDup (map line_id (lines self)) ->
  filter (fun l => negb (is_shipment_cost_line l))
    (lines (Sale_write_lines self
              [ create [shipping_line_values c mc d];
                delete (filter is_shipment_cost_line (lines self)) ]))
  = filter (fun l => negb (is_shipment_cost_line l)) (lines self).
Proof.
  intros Hd Hnd. unfold Sale_write_lines. simpl.
  rewrite delete_lines_app, filter_app.
  rewrite delete_keeps_fresh
    by (intros r Hr; apply filter_In in Hr; tauto).
  rewrite delete_keeps_other_lines by exact Hnd.
  simpl. unfold is_shipment_cost_line at 2. simpl.
  apply nonzero_true in Hd. rewrite Hd. simpl. apply app_nil_r.
Qed.

(** C8. The call returns with the sale as it was, so with every line in its
    place, when the sale has no carrier or a carrier of another cost method,
    and when the carrier is endicia, a mail class is selected and the USD
    price is [None] or zero. *)
Theorem apply_endicia_shipping_no_change :
  ((carrier self = None
    \/ exists c, carrier self = Some c /\ carrier_cost_method c <> "endicia") ->
   apply_endicia_shipping w self = Ok self
   /\ lines (sale_after w self) = lines self)
  /\ (forall c mc cost k,
        carrier self = Some c ->
        carrier_cost_method c = "endicia" ->
        endicia_mailclass self = Some mc ->
        get_sale_price w self = Ok (cost, k) ->
        truthy_number cost = false ->
        apply_endicia_shipping w self = Ok self
        /\ lines (sale_after w self) = lines self).
Proof.
  assert (forall s, apply_endicia_shipping w s = Ok s ->
                    apply_endicia_shipping w s = Ok s
                    /\ lines (sale_after w s) = lines s) as Hafter.
  { intros s H. split; [exact H|]. unfold sale_after. rewrite H. reflexivity. }
  split.
  - intros [Hc | (c & Hc & Hm)]; apply Hafter; unfold apply_endicia_shipping;
      rewrite Hc; [reflexivity|].
    apply String.eqb_neq in Hm. rewrite Hm. reflexivity.
  - intros c mc cost k Hc Hm Hmc Hp Hf. apply Hafter.
    unfold apply_endicia_shipping. rewrite Hc, Hm, Hmc, Hp. simpl.
    destruct cost as [d|]; [|reflexivity].
    simpl in Hf. rewrite Hf. reflexivity.
Qed.

End ApplyShipping.

(** C1, as amended.  With an endicia carrier, a selected mail class, a USD
    price that is not zero, one USD currency and a converted cost that is
    not zero, the call completes and the sale then has exactly one
    shipment-cost line, whose unit price, amount and shipment cost are the
    converted cost.  A second call on the resulting sale, under the same
    conditions and with the price of that moment, again leaves exactly one
    shipment-cost line, with the cost of the second call; the mail class is
    unchanged throughout. *)
Theorem apply_endicia_shipping_one_shipment_cost_line
    (w1 w2 : World) (self : Sale) (c : Carrier) (mc : Mailclass)
    (cost1 cost2 : Decimal) (k1 k2 : nat) (usd1 usd2 : Currency) :
  carrier self = Some c ->
  carrier_cost_method c = "endicia" ->
  endicia_mailclass self = Some mc ->
  get_sale_price w1 self = Ok (Some cost1, k1) ->
  ~ cost1 == 0 ->
  Currency_search_code w1 "USD" = [usd1] ->
  ~ Currency_compute w1 usd1 cost1 (currency self) == 0 ->
  get_sale_price w2 (sale_after w1 self) = Ok (Some cost2, k2) ->
  ~ cost2 == 0 ->
  Currency_search_code w2 "USD" = [usd2] ->
  ~ Currency_compute w2 usd2 cost2 (currency self) == 0 ->
  exists l1 l2,
    apply_endicia_shipping w1 self = Ok (sale_after w1 self)
    /\ shipment_cost_lines (sale_after w1 self) = [l1]
    /\ unit_price l1 = Currency_compute w1 usd1 cost1 (currency self)
    /\ amount l1 = Currency_compute w1 usd1 cost1 (currency self)
    /\ shipment_cost l1 = Some (Currency_compute w1 usd1 cost1 (currency self))
    /\ endicia_mailclass (sale_after w1 self) = Some mc
    /\ apply_endicia_shipping w2 (sale_after w1 self)
       = Ok (sale_after w2 (sale_after w1 self))
    /\ shipment_cost_lines (sale_after w2 (sale_after w1 self)) = [l2]
    /\ unit_price l2 = Currency_compute w2 usd2 cost2 (currency self)
    /\ amount l2 = Currency_compute w2 usd2 cost2 (currency self)
    /\ shipment_cost l2 = Some (Currency_compute w2 usd2 cost2 (currency self))
    /\ endicia_mailclass (sale_after w2 (sale_after w1 self)) = Some mc.
Proof.
  intros Hc Hm Hmc Hp1 Hn1 Hu1 Hd1.
  pose proof (apply_endicia_shipping_writes w1 self Hc Hm Hmc Hp1 Hn1 Hu1) as H1.
  assert (sale_after w1 self
          = Sale_write_lines self
              [ create [shipping_line_values c mc
                          (Currency_compute w1 usd1 cost1 (currency self))];
                delete (filter is_shipment_cost_line (lines self)) ]) as Hs1
    by (unfold sale_after; rewrite H1; reflexivity).
  rewrite <- Hs1 in H1. revert H1.
  generalize (written_shipment_cost_lines self c mc Hd1). rewrite <- Hs1.
  assert (carrier (sale_after w1 self) = Some c) as Hc'
    by (rewrite Hs1; exact Hc).
  assert (endicia_mailclass (sale_after w1 self) = Some mc) as Hmc'
    by (rewrite Hs1; exact Hmc).
  assert (currency (sale_after w1 self) = currency self) as Hcur
    by (rewrite Hs1; reflexivity).
  clear Hs1. set (s1 := sale_after w1 self) in *.
  intros Hl1 H1 Hp2 Hn2 Hu2 Hd2.
  rewrite <- Hcur in Hd2.
  pose proof (apply_endicia_shipping_writes w2 s1 Hc' Hm Hmc' Hp2 Hn2 Hu2) as H2.
  assert (sale_after w2 s1
          = Sale_write_lines s1
              [ create [shipping_line_values c mc
                          (Currency_compute w2 usd2 cost2 (currency s1))];
                delete (filter is_shipment_cost_line (lines s1)) ]) as Hs2
    by (unfold sale_after; rewrite H2; reflexivity).
  rewrite <- Hs2 in H2.
  pose proof (written_shipment_cost_lines s1 c mc Hd2) as Hl2.
  rewrite <- Hs2 in Hl2.
  assert (endicia_mailclass (sale_after w2 s1) = Some mc) as Hmc''
    by (rewrite Hs2; exact Hmc').
  rewrite Hcur in Hl2.
  eexists. eexists.
  repeat split; try eassumption; reflexivity.
Qed.

(** ** The code on concrete sales *)

(** Weights: 1.2 oz rounds up to 2; 2 x 16 lb is 512 oz; a service weighs
    nothing; a negative weight gives a negative result; a zero weight is
    refused; a quantity of zero weighs nothing. *)
Example weights_of_example_lines :
  map (get_weight_for_endicia example_world)
      [line_of 1 letter 1; line_of 2 anvil 2; line_of 3 postage 1;
       line_of 4 balloon 1; line_of 5 ghost 1; line_of 6 letter 0]
  = [Ok 2; Ok 512; Ok 0; Ok (inject_Z (-1));
     Raise (UserError (MissingWeightError "Ghost")); Ok 0].
Proof. vm_compute. reflexivity. Qed.

(** Three mail classes, the second of which has no value, on a sale without
    a selected mail class: the silent call returns the first and the third
    option; the other call raises on the second. *)
Example rates_of_three_mail_classes :
  let sale := example_sale (Some usps) None USD [line_of 1 letter 1] in
  fst (get_endicia_shipping_rates example_world sale true [])
  = Ok [rate_option example_world usps USD priority (525 # 100);
        rate_option example_world usps USD first_class (210 # 100)]
  /\ fst (get_endicia_shipping_rates example_world sale false [])
     = Raise (UserError MailClassMissingError).
Proof. split; vm_compute; reflexivity. Qed.

Lemma get_weight_for_endicia_zero_witness :
  (exists p, product (line_of 3 postage 1) = Some p /\ product_type p = "service")
  /\ weight postage = None
  /\ get_weight_for_endicia example_world (line_of 3 postage 1) = Ok 0.
Proof.
  assert (exists p, product (line_of 3 postage 1) = Some p
                    /\ product_type p = "service") as H
    by (exists postage; split; reflexivity).
  split; [exact H | split; [reflexivity|]].
  apply get_weight_for_endicia_zero. right. left. exact H.
Defined.

Lemma get_weight_for_endicia_missing_weight_witness :
  get_weight_for_endicia example_world (line_of 5 ghost 1)
  = Raise (UserError (MissingWeightError "Ghost"))
  /\ user_error_message (MissingWeightError "Ghost")
     = "Weight is missing on the product Ghost".
Proof.
  refine (proj1 (@get_weight_for_endicia_missing_weight example_world
                   (line_of 5 ghost 1) ghost 1 _ _ _ _) _).
  - reflexivity.
  - discriminate.
  - reflexivity.
  - reflexivity.
  - right. exists 0. split; reflexivity.
Defined.




(** The float nearest to 1.2, as the weight in ounces of one letter, gives
    2 ounces. *)
Example weight_of_airmail_letter :
  is_double (5404319552844595 # 4503599627370496)
  /\ 12 # 10 < (5404319552844595 # 4503599627370496) + (1 # 1000000000000000)
  /\ (5404319552844595 # 4503599627370496) < 12 # 10
  /\ get_weight_for_endicia example_world (line_of 8 airmail_letter 1) = Ok 2.
Proof.
  split; [|split; [reflexivity | split; [reflexivity | vm_compute; reflexivity]]].
  exists 5404319552844595%Z, (-52)%Z.
  split; [vm_compute; reflexivity|]. split; [lia|]. vm_compute. reflexivity.
Qed.

Lemma get_endicia_shipping_cost_single_attempt_witness :
  calculate_postage_request example_world letter_sale (Some "Express")
  = Ok express_request
  /\ send_request example_world express_request
     = ServiceError "Mail class not available"
  /\ get_endicia_shipping_cost example_world letter_sale (Some "Express") []
     = (Raise (UserError (CarrierRequestError example_world
                            "Mail class not available")),
        [express_request])
  /\ user_error_message
       (CarrierRequestError example_world "Mail class not available")
     = "Mail class not available".
Proof.
  assert (calculate_postage_request example_world letter_sale (Some "Express")
          = Ok express_request) as Hr by (vm_compute; reflexivity).
  assert (send_request example_world express_request
          = ServiceError "Mail class not available") as Hs by reflexivity.
  split; [exact Hr | split; [exact Hs|]].
  destruct (proj1 (get_endicia_shipping_cost_single_attempt
                     example_world letter_sale (Some "Express") [] Hr)
              "Mail class not available" Hs) as [Hraise Htext].
  split; [exact Hraise|]. apply Htext.
  intros text [H|[H|[H|[]]]]; discriminate.
Defined.

(** The counterexample of C9: the service reports the text
    'mailclass_missing', which is a key of the messages of the sale, and
    the error raised carries the message registered under this key instead
    of the text of the service. *)
Lemma get_endicia_shipping_cost_service_text_is_key :
  calculate_postage_request key_world letter_sale (Some "Express")
  = Ok express_request
  /\ send_request key_world express_request = ServiceError "mailclass_missing"
  /\ get_endicia_shipping_cost key_world letter_sale (Some "Express") []
     = (Raise (UserError "Select a mailclass to ship using Endicia [USPS]."),
        [express_request])
  /\ "Select a mailclass to ship using Endicia [USPS]." <> "mailclass_missing".
Proof.
  split; [vm_compute; reflexivity|]. split; [reflexivity|].
  split; [vm_compute; reflexivity | discriminate].
Qed.

(** The counterexample of C7: an empty mail class is passed explicitly, the
    sale has none selected, and the missing-mail-class error is raised. *)
Lemma get_endicia_shipping_cost_empty_mailclass :
  endicia_mailclass letter_sale = None
  /\ get_endicia_shipping_cost example_world letter_sale (Some "") []
     = (Raise (UserError MailClassMissingError), []).
Proof.
  split; [reflexivity | vm_compute; reflexivity].
Qed.



(** The counterexample of C2: the service rejects the Express mail class,
    the quote raises the carrier-request error, and the silent call returns
    the two other options instead of raising. *)
Lemma silent_swallows_carrier_request_error :
  quote shopping_world letter_sale express
  = Raise (UserError (CarrierRequestError shopping_world
                        "Mail class not available"))
  /\ In express (_get_endicia_mail_classes shopping_world letter_sale)
  /\ fst (get_endicia_shipping_rates shopping_world letter_sale true [])
     = Ok [rate_option shopping_world usps USD priority (525 # 100);
           rate_option shopping_world usps USD first_class (210 # 100)].
Proof.
  split; [vm_compute; reflexivity | split].
  - right. left. reflexivity.
  - vm_compute. reflexivity.
Qed.

Lemma get_endicia_shipping_rates_silent_witness :
  get_endicia_shipping_rates shopping_world letter_sale true []
  = (Ok (quoted_options shopping_world letter_sale usps USD
           [priority; express; first_class]),
     [] ++ requests_of shopping_world letter_sale [priority; express; first_class])
  /\ get_endicia_shipping_rates parcel_world letter_sale true []
     = (Raise (Exception "URLError"),
        [] ++ requests_of parcel_world letter_sale ([priority] ++ [parcel])).
Proof.
  split.
  - apply (proj1 (@get_endicia_shipping_rates_silent shopping_world letter_sale
                    usps USD [] eq_refl eq_refl)).
    intros m [H|[H|[H|[]]]]; subst m.
    + left. eexists. vm_compute. reflexivity.
    + right. eexists. vm_compute. reflexivity.
    + left. eexists. vm_compute. reflexivity.
  - apply (proj2 (@get_endicia_shipping_rates_silent parcel_world letter_sale
                    usps USD [] eq_refl eq_refl) [priority] parcel [first_class]).
    + reflexivity.
    + intros x [H|[]]; subst x; vm_compute; reflexivity.
    + vm_compute. reflexivity.
    + reflexivity.
Defined.

Lemma get_endicia_shipping_rates_needs_one_carrier_witness :
  get_endicia_shipping_rates no_carrier_world letter_sale true []
  = (Raise ValueError, [])
  /\ get_endicia_shipping_rates two_carrier_world letter_sale false []
     = (Raise ValueError, []).
Proof.
  split; apply get_endicia_shipping_rates_needs_one_carrier;
    vm_compute; discriminate.
Defined.

Lemma apply_endicia_shipping_no_change_witness :
  (apply_endicia_shipping example_world courier_sale = Ok courier_sale
   /\ lines (sale_after example_world courier_sale) = lines courier_sale)
  /\ (apply_endicia_shipping free_world priority_sale = Ok priority_sale
      /\ lines (sale_after free_world priority_sale) = lines priority_sale).
Proof.
  split.
  - apply (proj1 (apply_endicia_shipping_no_change example_world courier_sale)).
    right. exists courier. split; [reflexivity | discriminate].
  - apply (proj2 (apply_endicia_shipping_no_change free_world priority_sale)
             usps priority (Some 0) 1%nat); reflexivity.
Defined.

(** The counterexample of C1: the price of 5 USD is not zero, its
    conversion into a currency worth 100000 USD rounds to zero cents, and
    the line written with it is not a shipment-cost line. *)
Lemma apply_endicia_shipping_zero_converted_cost :
  carrier xbt_sale = Some usps
  /\ carrier_cost_method usps = "endicia"
  /\ endicia_mailclass xbt_sale = Some priority
  /\ get_sale_price strong_currency_world xbt_sale = Ok (Some 5, 1%nat)
  /\ ~ 5 == 0
  /\ apply_endicia_shipping strong_currency_world xbt_sale
     = Ok (sale_after strong_currency_world xbt_sale)
  /\ shipment_cost_lines (sale_after strong_currency_world xbt_sale) = []
  /\ map line_id (lines (sale_after strong_currency_world xbt_sale))
     = [1%nat; 8%nat].
Proof.
  repeat split; try reflexivity; try discriminate; vm_compute; reflexivity.
Qed.

Lemma apply_endicia_shipping_one_shipment_cost_line_witness :
  exists l1 l2,
    apply_endicia_shipping example_world priority_sale
    = Ok (sale_after example_world priority_sale)
    /\ shipment_cost_lines (sale_after example_world priority_sale) = [l1]
    /\ unit_price l1 = 21 # 4
    /\ amount l1 = 21 # 4
    /\ shipment_cost l1 = Some (21 # 4)
    /\ endicia_mailclass (sale_after example_world priority_sale) = Some priority
    /\ apply_endicia_shipping five_usd_world (sale_after example_world priority_sale)
       = Ok (sale_after five_usd_world (sale_after example_world priority_sale))
    /\ shipment_cost_lines
         (sale_after five_usd_world (sale_after example_world priority_sale))
       = [l2]
    /\ unit_price l2 = round_cents 5
    /\ amount l2 = round_cents 5
    /\ shipment_cost l2 = Some (round_cents 5)
    /\ endicia_mailclass
         (sale_after five_usd_world (sale_after example_world priority_sale))
       = Some priority.
Proof.
  apply (@apply_endicia_shipping_one_shipment_cost_line
           example_world five_usd_world priority_sale usps priority
           (21 # 4) 5 1%nat 1%nat USD USD).
  - reflexivity.
  - reflexivity.
  - reflexivity.
  - reflexivity.
  - discriminate.
  - reflexivity.
  - discriminate.
  - reflexivity.
  - discriminate.
  - reflexivity.
  - vm_compute. discriminate.
Defined.

(** * Further properties of the code *)

(** ** More on the weight of a line *)

Section WeightOutcome.

Variable w : World.

(** X1. A call of [get_weight_for_endicia] raises in two ways only: the
    missing-weight error with the name of the product of the line, or
    [ValueError], which happens only when the weight unit of the product is
    not the ounce. *)
Theorem get_weight_for_endicia_outcome (line : SaleLine) (e : exn) :
  get_weight_for_endicia w line = Raise e ->
  exists p, product line = Some p
    /\ (e = UserError (MissingWeightError (product_name p))
        \/ (e = ValueError /\ symbol (weight_uom p) <> "oz")).
Proof.
  unfold get_weight_for_endicia.
  destruct (product line) as [p|]; [|discriminate].
  destruct (String.eqb (product_type p) "service"); [discriminate|].
  destruct (quantity line) as [q|]; [|discriminate].
  destruct (Qle_bool q 0); [discriminate|].
  destruct (weight p) as [pw|];
    [|intro H; injection H as <-; exists p; auto].
  destruct (negb (nonzero pw)); [intro H; injection H as <-; exists p; auto|].
  destruct (String.eqb (symbol (weight_uom p)) "oz") eqn:Hs; simpl.
  - discriminate.
  - apply String.eqb_neq in Hs.
    destruct (unpack1 (ProductUom_search_symbol w "oz")) as [u|e'] eqn:Hu; simpl.
    + discriminate.
    + apply unpack1_raise in Hu. subst e'.
      intro H. injection H as <-. exists p. auto.
Qed.

(** X2. A physical product weighed in another unit than the ounce needs the
    ounce unit: when the search for the unit of symbol 'oz' does not return
    exactly one unit, the call raises [ValueError]. *)
Theorem get_weight_for_endicia_needs_ounce (line : SaleLine) (p : Product)
    (q pw : Q) :
  product line = Some p ->
  product_type p <> "service" ->
  quantity line = Some q ->
  0 < q ->
  weight p = Some pw ->
  ~ pw == 0 ->
  symbol (weight_uom p) <> "oz" ->
  List.length (ProductUom_search_symbol w "oz") <> 1%nat ->
  get_weight_for_endicia w line = Raise ValueError.
Proof.
  intros Hp Ht Hq Hpos Hw Hnz Hs Hoz.
  apply String.eqb_neq in Ht. apply Qle_bool_false in Hpos.
  apply nonzero_true in Hnz. apply String.eqb_neq in Hs.
  unfold get_weight_for_endicia.
  rewrite Hp, Ht, Hq, Hpos, Hw, Hnz, Hs. simpl.
  rewrite (unpack1_not_singleton _ Hoz). reflexivity.
Qed.



End WeightOutcome.

(** X4. The unit table and the unit converter are consulted only for a
    conversion: a line sold in the default unit of a product weighed in
    ounces has the same weight in every world. *)
Theorem get_weight_for_endicia_without_conversion (w1 w2 : World)
    (line : SaleLine) :
  (forall p, product line = Some p ->
             uom_eqb (unit line) (default_uom p) = true
             /\ symbol (weight_uom p) = "oz") ->
  get_weight_for_endicia w1 line = get_weight_for_endicia w2 line.
Proof.
  intro H. unfold get_weight_for_endicia.
  destruct (product line) as [p|]; [|reflexivity].
  destruct (H p eq_refl) as [Hu Hs]. rewrite Hu, Hs. reflexivity.
Qed.

(** ** More on the cost of one mail class *)

Lemma substring_prefix (n : nat) (s : string) :
  exists rest, s = (substring 0 n s ++ rest)%string
               /\ String.length (substring 0 n s) = Nat.min n (String.length s).
Proof.
  revert s. induction n as [|n IH]; intro s.
  - exists s. destruct s; split; reflexivity.
  - destruct s as [|c s].
    + exists "". split; reflexivity.
    + destruct (IH s) as (rest & Hs & Hl). exists rest. simpl. split.
      * f_equal. exact Hs.
      * f_equal. exact Hl.
Qed.

Lemma rmap_first_raise {A B} (f : A -> result B) (pre post : list A) (x : A)
    (e : exn) :
  (forall y, In y pre -> is_Ok (f y) = true) ->
  f x = Raise e ->
  rmap f (pre ++ x :: post) = Raise e.
Proof.
  induction pre as [|y pre IH]; intros Hpre Hx; simpl.
  - rewrite Hx. reflexivity.
  - assert (is_Ok (f y) = true) as Hy by (apply Hpre; left; reflexivity).
    destruct (f y) as [b|e']; [|discriminate]. simpl.
    rewrite IH; [reflexivity | | exact Hx].
    intros z Hz. apply Hpre. right. exact Hz.
Qed.

Lemma rmap_ok {A B} (f : A -> result B) (xs : list A) (ys : list B) :
  rmap f xs = Ok ys -> Forall2 (fun x y => f x = Ok y) xs ys.
Proof.
  revert ys. induction xs as [|x xs IH]; simpl; intros ys H.
  - inversion H. constructor.
  - destruct (f x) as [y|e] eqn:Hx; simpl in H; [|discriminate].
    destruct (rmap f xs) as [ys'|e]; simpl in H; [|discriminate].
    inversion H; subst. constructor; [exact Hx | apply IH; reflexivity].
Qed.

Section ShippingCostOutcome.

Variable w : World.
Variable self : Sale.

Lemma get_weight_for_endicia_user_error (line : SaleLine) (u : user_error) :
  get_weight_for_endicia w line = Raise (UserError u) ->
  exists p, product line = Some p /\ u = MissingWeightError (product_name p).
Proof.
  unfold get_weight_for_endicia.
  destruct (product line) as [p|]; [|discriminate].
  destruct (String.eqb (product_type p) "service"); [discriminate|].
  destruct (quantity line) as [q|]; [|discriminate].
  destruct (Qle_bool q 0); [discriminate|].
  destruct (weight p) as [pw|];
    [|intro H; inversion H; exists p; auto].
  destruct (negb (nonzero pw)); [intro H; inversion H; exists p; auto|].
  destruct (negb (String.eqb (symbol (weight_uom p)) "oz")); simpl.
  - destruct (unpack1 (ProductUom_search_symbol w "oz")) as [o|e] eqn:Hu; simpl.
    + discriminate.
    + apply unpack1_raise in Hu. subst e. discriminate.
  - discriminate.
Qed.

(** The steps of [calculate_postage_request] once the mail class is there. *)
Lemma calculate_postage_request_steps (mailclass : option string) :
  truthy_string mailclass = true \/ endicia_mailclass self <> None ->
  calculate_postage_request w self mailclass
  = (from_address <-? _get_ship_from_address self ;;
     mailclass' <-? mailclass_or_selected mailclass (endicia_mailclass self) ;;
     weights <-? rmap (get_weight_for_endicia w) (lines self) ;;
     from_postal_code <-? zip5 from_address ;;
     to_postal_code <-? zip5 (shipment_address self) ;;
     to_country_code <-? address_country_code (shipment_address self) ;;
     Ok {| req_mailclass := mailclass';
           req_weightoz := sum weights;
           req_from_postal_code := from_postal_code;
           req_to_postal_code := to_postal_code;
           req_to_country_code := to_country_code;
           req_accountid := account_id (get_endicia_credentials w);
           req_requesterid := requester_id (get_endicia_credentials w);
           req_passphrase := passphrase (get_endicia_credentials w);
           req_test := is_test (get_endicia_credentials w) |}).
Proof.
  intro H. unfold calculate_postage_request.
  destruct (truthy_string mailclass); [reflexivity|].
  destruct (endicia_mailclass self); [reflexivity|].
  destruct H as [H|H]; [discriminate | exfalso; apply H; reflexivity].
Qed.

Lemma calculate_postage_request_resolved (mailclass : option string)
    (r : Request) :
  calculate_postage_request w self mailclass = Ok r ->
  truthy_string mailclass = true \/ endicia_mailclass self <> None.
Proof.
  unfold calculate_postage_request.
  destruct (truthy_string mailclass); [auto|].
  destruct (endicia_mailclass self); [intros _; right; discriminate|].
  discriminate.
Qed.

(** What a built request is made of. *)
Lemma calculate_postage_request_ok (mailclass : option string) (r : Request) :
  calculate_postage_request w self mailclass = Ok r ->
  exists from_address m ws zf zt cc,
    _get_ship_from_address self = Ok from_address
    /\ mailclass_or_selected mailclass (endicia_mailclass self) = Ok m
    /\ rmap (get_weight_for_endicia w) (lines self) = Ok ws
    /\ zip5 from_address = Ok zf
    /\ zip5 (shipment_address self) = Ok zt
    /\ address_country_code (shipment_address self) = Ok cc
    /\ r = {| req_mailclass := m;
              req_weightoz := sum ws;
              req_from_postal_code := zf;
              req_to_postal_code := zt;
              req_to_country_code := cc;
              req_accountid := account_id (get_endicia_credentials w);
              req_requesterid := requester_id (get_endicia_credentials w);
              req_passphrase := passphrase (get_endicia_credentials w);
              req_test := is_test (get_endicia_credentials w) |}.
Proof.
  intro H. pose proof (calculate_postage_request_resolved _ H) as Hres.
  rewrite (calculate_postage_request_steps _ Hres) in H.
  destruct (_get_ship_from_address self) as [a|] eqn:H1; simpl in H;
    [|discriminate].
  destruct (mailclass_or_selected mailclass (endicia_mailclass self)) as [m|]
    eqn:H2; simpl in H; [|discriminate].
  destruct (rmap (get_weight_for_endicia w) (lines self)) as [ws|] eqn:H3;
    simpl in H; [|discriminate].
  destruct (zip5 a) as [zf|] eqn:H4; simpl in H; [|discriminate].
  destruct (zip5 (shipment_address self)) as [zt|] eqn:H5; simpl in H;
    [|discriminate].
  destruct (address_country_code (shipment_address self)) as [cc|] eqn:H6;
    simpl in H; [|discriminate].
  injection H as <-. exists a, m, ws, zf, zt, cc. repeat split; assumption.
Qed.

(** The [UserError]s of [calculate_postage_request]. *)
Lemma calculate_postage_request_user_error (mailclass : option string)
    (u : user_error) :
  calculate_postage_request w self mailclass = Raise (UserError u) ->
  (u = MailClassMissingError
   /\ truthy_string mailclass = false /\ endicia_mailclass self = None)
  \/ (exists l p, In l (lines self) /\ product l = Some p
                  /\ u = MissingWeightError (product_name p)).
Proof.
  intro H.
  destruct (truthy_string mailclass) eqn:Hm;
    [|destruct (endicia_mailclass self) as [mc|] eqn:Hs].
  3: { left. unfold calculate_postage_request in H. rewrite Hm, Hs in H.
       inversion H. auto. }
  all: right; rewrite calculate_postage_request_steps in H
         by (rewrite ?Hs; auto; right; discriminate).
  all: destruct (_get_ship_from_address self) as [a|e1] eqn:H1; simpl in H;
    [|unfold _get_ship_from_address in H1; destruct (warehouse self);
      congruence].
  all: destruct (mailclass_or_selected mailclass _) as [m'|e2] eqn:H2;
    simpl in H;
    [|unfold mailclass_or_selected in H2; rewrite ?Hm, ?Hs in H2;
      destruct mailclass; simpl in *; congruence].
  all: destruct (rmap (get_weight_for_endicia w) (lines self)) as [ws|e3] eqn:H3;
    simpl in H;
    [|inversion H; subst e3; apply rmap_raise in H3;
      destruct H3 as (l & Hl & Hw);
      apply get_weight_for_endicia_user_error in Hw;
      destruct Hw as (p & Hp & Hu); exists l, p; auto].
  all: destruct (zip5 a) as [z1|e4] eqn:H4; simpl in H;
    [|inversion H; subst e4; apply zip5_raise in H4; destruct H4; discriminate].
  all: destruct (zip5 (shipment_address self)) as [z2|e5] eqn:H5; simpl in H;
    [|inversion H; subst e5; apply zip5_raise in H5; destruct H5; discriminate].
  all: unfold address_country_code in H;
    destruct (shipment_address self) as [sa|]; simpl in H; [|discriminate];
    destruct (country sa); simpl in H; discriminate.
Qed.

End ShippingCostOutcome.

Section ShippingCostRequest.

Variable w : World.
Variable self : Sale.

(** X5. The mail class of the request: the argument when it is given and
    not empty, and the value of the mail class selected on the sale
    otherwise. *)
Theorem calculate_postage_request_mailclass (mailclass : option string)
    (r : Request) :
  calculate_postage_request w self mailclass = Ok r ->
  (truthy_string mailclass = true -> mailclass = Some (req_mailclass r))
  /\ (truthy_string mailclass = false ->
      exists mc, endicia_mailclass self = Some mc /\ req_mailclass r = value mc).
Proof.
  intro H. destruct (calculate_postage_request_ok _ _ _ H)
    as (a & m & ws & zf & zt & cc & _ & Hm & _ & _ & _ & _ & Hr).
  subst r. simpl. unfold mailclass_or_selected in Hm. split; intro Ht.
  - destruct mailclass as [m0|]; [|discriminate].
    rewrite Ht in Hm. congruence.
  - destruct mailclass as [m0|]; rewrite ?Ht in Hm;
      destruct (endicia_mailclass self) as [mc|]; try discriminate;
      exists mc; split; congruence.
Qed.

(** X6. The postal codes of the request are the first five characters of
    the zip of the warehouse address and of the shipment address; a shorter
    zip is passed whole. *)
Theorem calculate_postage_request_postal_codes (mailclass : option string)
    (r : Request) :
  calculate_postage_request w self mailclass = Ok r ->
  exists loc a_from z_from a_to z_to rest_from rest_to,
    warehouse self = Some loc
    /\ address loc = Some a_from
    /\ zip a_from = Some z_from
    /\ shipment_address self = Some a_to
    /\ zip a_to = Some z_to
    /\ z_from = (req_from_postal_code r ++ rest_from)%string
    /\ String.length (req_from_postal_code r) = Nat.min 5 (String.length z_from)
    /\ z_to = (req_to_postal_code r ++ rest_to)%string
    /\ String.length (req_to_postal_code r) = Nat.min 5 (String.length z_to).
Proof.
  intro H. destruct (calculate_postage_request_ok _ _ _ H)
    as (a & m & ws & zf & zt & cc & Ha & _ & _ & Hf & Ht & _ & Hr).
  subst r. cbn [req_from_postal_code req_to_postal_code].
  unfold _get_ship_from_address in Ha.
  destruct (warehouse self) as [loc|]; [|discriminate].
  injection Ha as <-.
  unfold zip5 in Hf, Ht.
  destruct (address loc) as [a_from|] eqn:Ha; [|discriminate].
  destruct (zip a_from) as [z_from|] eqn:Hzf; [|discriminate].
  destruct (shipment_address self) as [a_to|]; [|discriminate].
  destruct (zip a_to) as [z_to|] eqn:Hzt; [|discriminate].
  injection Hf as <-. injection Ht as <-.
  destruct (substring_prefix 5 z_from) as (rest_from & Hf1 & Hf2).
  destruct (substring_prefix 5 z_to) as (rest_to & Ht1 & Ht2).
  exists loc, a_from, z_from, a_to, z_to, rest_from, rest_to.
  unfold first5. repeat split; try reflexivity; assumption.
Qed.

(** X8. The [UserError]s of a quote are raised at three places.  The
    missing mail class and the missing weight of the product of one of the
    lines are raised before any request is sent; the third is raised after
    the one request sent, with the message that [raise_user_error] makes of
    the text that the service reported. *)
Theorem get_endicia_shipping_cost_user_errors (mailclass : option string)
    (log log' : list Request) (u : user_error) :
  get_endicia_shipping_cost w self mailclass log = (Raise (UserError u), log') ->
  (u = MailClassMissingError /\ log' = log
   /\ truthy_string mailclass = false /\ endicia_mailclass self = None)
  \/ (exists l p, In l (lines self) /\ product l = Some p
                  /\ u = MissingWeightError (product_name p) /\ log' = log)
  \/ (exists request message,
        calculate_postage_request w self mailclass = Ok request
        /\ send_request w request = ServiceError message
        /\ u = CarrierRequestError w message
        /\ log' = log ++ [request]).
Proof.
  intro H.
  destruct (calculate_postage_request w self mailclass) as [request|e] eqn:Hr.
  - erewrite get_endicia_shipping_cost_sent in H by exact Hr.
    injection H as H1 H2. right. right.
    destruct (send_request w request) as [response|message|n] eqn:Hs.
    + exfalso. unfold parse_total_amount in H1.
      destruct (TotalAmount response) as [literal|]; [|discriminate].
      destruct (Decimal_of_string w literal); discriminate.
    + exists request, message. injection H1 as <-. auto.
    + discriminate.
  - erewrite get_endicia_shipping_cost_no_request in H by exact Hr.
    injection H as H1 H2. subst e log'.
    destruct (calculate_postage_request_user_error _ _ _ Hr)
      as [(Hu & Hm & Hs) | (l & p & Hl & Hp & Hu)].
    + left. auto.
    + right. left. exists l, p. auto.
Qed.

(** A line whose weight cannot be computed stops the request from being
    built. *)
Lemma calculate_postage_request_bad_line (mailclass : option string)
    (loc : Location) (pre post : list SaleLine) (l : SaleLine) (e : exn) :
  warehouse self = Some loc ->
  truthy_string mailclass = true \/ endicia_mailclass self <> None ->
  lines self = pre ++ l :: post ->
  (forall x, In x pre -> is_Ok (get_weight_for_endicia w x) = true) ->
  get_weight_for_endicia w l = Raise e ->
  calculate_postage_request w self mailclass = Raise e.
Proof.
  intros Hw Hm Hl Hpre He.
  rewrite (calculate_postage_request_steps _ _ _ Hm).
  unfold _get_ship_from_address. rewrite Hw. simpl.
  assert (exists m, mailclass_or_selected mailclass (endicia_mailclass self) = Ok m)
    as (m & Hm').
  { unfold mailclass_or_selected.
    destruct (truthy_string mailclass) eqn:Ht.
    - destruct mailclass as [m0|]; [|discriminate]. eauto.
    - destruct Hm as [Hm|Hm]; [discriminate|].
      destruct (endicia_mailclass self) as [mc|];
        [|exfalso; apply Hm; reflexivity].
      destruct mailclass; eauto. }
  rewrite Hm'. simpl. rewrite Hl.
  rewrite (rmap_first_raise _ _ _ _ Hpre He). reflexivity.
Qed.

(** X9. With a warehouse and a mail class, the weights of the lines are
    computed in order before anything is sent: the exception of the first
    line whose weight cannot be computed leaves the call, and the log of
    requests is as it was. *)
Theorem get_endicia_shipping_cost_first_bad_line (mailclass : option string)
    (loc : Location) (pre post : list SaleLine) (l : SaleLine) (e : exn)
    (log : list Request) :
  warehouse self = Some loc ->
  truthy_string mailclass = true \/ endicia_mailclass self <> None ->
  lines self = pre ++ l :: post ->
  (forall x, In x pre -> is_Ok (get_weight_for_endicia w x) = true) ->
  get_weight_for_endicia w l = Raise e ->
  get_endicia_shipping_cost w self mailclass log = (Raise e, log).
Proof.
  intros Hw Hm Hl Hpre He.
  apply get_endicia_shipping_cost_no_request.
  eapply calculate_postage_request_bad_line; eassumption.
Qed.

(** X10. Once the request is sent, what is not an answer with an amount is
    raised as it is, after this one request: the failure of the transport,
    [TypeError] for a response without total amount, [InvalidOperation] for
    an amount that is not a decimal literal.  None of them is a
    [UserError]. *)
Theorem get_endicia_shipping_cost_bad_response (mailclass : option string)
    (request : Request) (log : list Request) :
  calculate_postage_request w self mailclass = Ok request ->
  (forall n,
     send_request w request = TransportFailure n ->
     get_endicia_shipping_cost w self mailclass log
     = (Raise (Exception n), log ++ [request]))
  /\ (forall response,
        send_request w request = Responded response ->
        TotalAmount response = None ->
        get_endicia_shipping_cost w self mailclass log
        = (Raise TypeError, log ++ [request]))
  /\ (forall response literal,
        send_request w request = Responded response ->
        TotalAmount response = Some literal ->
        Decimal_of_string w literal = None ->
        get_endicia_shipping_cost w self mailclass log
        = (Raise InvalidOperation, log ++ [request])).
Proof.
  intro Hr. erewrite get_endicia_shipping_cost_sent by exact Hr.
  repeat split.
  - intros n Hs. rewrite Hs. reflexivity.
  - intros response Hs Ht. rewrite Hs. unfold parse_total_amount.
    rewrite Ht. reflexivity.
  - intros response literal Hs Ht Hd. rewrite Hs. unfold parse_total_amount.
    rewrite Ht, Hd. reflexivity.
Qed.

End ShippingCostRequest.

(** ** More on rate shopping *)

Lemma unpack1_ok {A} (xs : list A) (x : A) : unpack1 xs = Ok x -> xs = [x].
Proof.
  destruct xs as [|y [|z xs]]; simpl; intro H; inversion H; reflexivity.
Qed.

Section RateShoppingOutcome.

Variable w : World.
Variable self : Sale.

Lemma quote_requests_at_most_one (m : Mailclass) :
  (List.length (quote_requests w self m) <= 1)%nat.
Proof.
  unfold quote_requests.
  apply (get_endicia_shipping_cost_at_most_one w self (Some (value m)) []).
Qed.

(** The requests of the loop: the log grows by at most one request for each
    pending mail class. *)
Lemma shipping_rates_loop_log (c : Carrier) (silent : bool)
    (pending : list Mailclass) :
  forall rate_lines log,
  exists sent,
    snd (shipping_rates_loop w self c silent pending rate_lines log) = log ++ sent
    /\ (List.length sent <= List.length pending)%nat.
Proof.
  induction pending as [|m pending IH]; intros rate_lines log; simpl.
  - exists []. rewrite app_nil_r. split; [reflexivity | apply Nat.le_refl].
  - rewrite quote_step. pose proof (quote_requests_at_most_one m) as H1.
    assert (forall rl,
              exists sent,
                snd (shipping_rates_loop w self c silent pending rl
                       (log ++ quote_requests w self m)) = log ++ sent
                /\ (List.length sent <= S (List.length pending))%nat) as Hrec.
    { intro rl. destruct (IH rl (log ++ quote_requests w self m))
        as (sent & Hs & Hl).
      exists (quote_requests w self m ++ sent). rewrite Hs, app_assoc.
      split; [reflexivity|]. rewrite length_app. lia. }
    assert (exists sent,
              log ++ quote_requests w self m = log ++ sent
              /\ (List.length sent <= S (List.length pending))%nat) as Hstop
      by (exists (quote_requests w self m); split; [reflexivity | lia]).
    destruct (quote w self m) as [cost|e].
    + unfold bind, lift.
      destruct (_make_endicia_rate_line w self c m cost) as [rl|e];
        [apply Hrec | exact Hstop].
    + destruct (is_UserError e); [|exact Hstop].
      destruct (negb silent); [exact Hstop | apply Hrec].
Qed.

Lemma option_of_more (c : Carrier) (m : Mailclass) (eligible : list Mailclass)
    (o : RateLine) :
  option_of w self c eligible o -> option_of w self c (m :: eligible) o.
Proof.
  intros (m' & cost & Hin & Hq & Hu & Ho).
  exists m', cost. repeat split; try assumption. right. exact Hin.
Qed.

(** The options of the loop: what it adds is built from successful quotes
    of pending mail classes, at most one for each. *)
Lemma shipping_rates_loop_adds (c : Carrier) (silent : bool)
    (pending : list Mailclass) :
  forall rate_lines log res log',
    shipping_rates_loop w self c silent pending rate_lines log = (Ok res, log') ->
    exists added,
      res = rate_lines ++ added
      /\ Forall (option_of w self c pending) added
      /\ (List.length added <= List.length pending)%nat.
Proof.
  induction pending as [|m pending IH]; intros rate_lines log res log' H;
    simpl in H.
  - unfold ret in H. injection H as <- _. exists [].
    rewrite app_nil_r. repeat split; [constructor | apply Nat.le_refl].
  - rewrite quote_step in H.
    assert (forall rl lg,
              shipping_rates_loop w self c silent pending rl lg = (Ok res, log') ->
              exists added, res = rl ++ added
                /\ Forall (option_of w self c (m :: pending)) added
                /\ (List.length added <= List.length pending)%nat) as Hrec.
    { intros rl lg Hl. destruct (IH _ _ _ _ Hl) as (added & Hr & Hf & Hn).
      exists added. repeat split; try assumption.
      eapply Forall_impl; [|exact Hf]. intros o. apply option_of_more. }
    destruct (quote w self m) as [cost|e] eqn:Hq.
    + unfold bind, lift in H.
      destruct (_make_endicia_rate_line w self c m cost) as [rl|e] eqn:Hrl;
        [|discriminate].
      unfold _make_endicia_rate_line in Hrl.
      destruct (unpack1 (Currency_search_code w "USD")) as [usd|] eqn:Hu;
        simpl in Hrl; [|discriminate].
      apply unpack1_ok in Hu. injection Hrl as <-.
      destruct (Hrec _ _ H) as (added & Hr & Hf & Hn).
      eexists (_ :: added). rewrite <- app_assoc in Hr. simpl in Hr.
      split; [exact Hr|]. split; [|simpl; lia].
      constructor; [|exact Hf].
      exists m, cost. simpl. repeat split; auto.
    + destruct (is_UserError e); [|discriminate].
      destruct (negb silent); [discriminate|].
      destruct (Hrec _ _ H) as (added & Hr & Hf & Hn).
      exists added. repeat split; try assumption. simpl. lia.
Qed.

(** The silent loop goes past the mail classes whose quote raises a
    [UserError], whether USD exists or not. *)
Lemma shipping_rates_loop_skips (c : Carrier) (pre rest : list Mailclass) :
  (forall x, In x pre -> exists u, quote w self x = Raise (UserError u)) ->
  forall rate_lines log,
    shipping_rates_loop w self c true (pre ++ rest) rate_lines log
    = shipping_rates_loop w self c true rest rate_lines
        (log ++ requests_of w self pre).
Proof.
  induction pre as [|x pre IH]; intros Hpre rate_lines log.
  - unfold requests_of. simpl. rewrite app_nil_r. reflexivity.
  - simpl. rewrite quote_step.
    destruct (Hpre x (or_introl eq_refl)) as (u & Hx). rewrite Hx. simpl.
    rewrite IH by (intros y Hy; apply Hpre; right; exact Hy).
    unfold requests_of. simpl. rewrite app_assoc. reflexivity.
Qed.

(** X11. Rate shopping sends at most one request for each eligible mail
    class, whatever the outcome, and never touches the requests logged
    before. *)
Theorem get_endicia_shipping_rates_request_bound (silent : bool)
    (log : list Request) :
  exists sent,
    snd (get_endicia_shipping_rates w self silent log) = log ++ sent
    /\ (List.length sent
        <= List.length (_get_endicia_mail_classes w self))%nat.
Proof.
  unfold get_endicia_shipping_rates, bind, lift.
  destruct (unpack1 (Carrier_search_cost_method w "endicia")) as [c|e].
  - destruct (shipping_rates_loop_log c silent
                (_get_endicia_mail_classes w self) [] log) as (sent & Hs & Hl).
    exists sent. split; [|exact Hl].
    destruct (shipping_rates_loop w self c silent _ [] log) as [[res|e] log'];
      exact Hs.
  - exists []. rewrite app_nil_r. split; [reflexivity | apply Nat.le_0_l].
Qed.

(** X12. Every option that rate shopping returns is built from the single
    endicia carrier, the single USD currency, an eligible mail class and
    the cost quoted for this mail class; there are at most as many options
    as eligible mail classes. *)
Theorem get_endicia_shipping_rates_returns (silent : bool)
    (log log' : list Request) (options : list RateLine) :
  get_endicia_shipping_rates w self silent log = (Ok options, log') ->
  exists c,
    Carrier_search_cost_method w "endicia" = [c]
    /\ Forall (option_of w self c (_get_endicia_mail_classes w self)) options
    /\ (List.length options
        <= List.length (_get_endicia_mail_classes w self))%nat.
Proof.
  unfold get_endicia_shipping_rates, bind, lift. intro H.
  destruct (unpack1 (Carrier_search_cost_method w "endicia")) as [c|e] eqn:Hc;
    [|discriminate].
  apply unpack1_ok in Hc. exists c. split; [exact Hc|].
  destruct (shipping_rates_loop w self c silent _ [] log) as [[res|e] lg] eqn:Hl;
    [|discriminate].
  unfold ret in H. injection H as <- _.
  destruct (shipping_rates_loop_adds _ _ _ _ _ Hl) as (added & Hr & Hf & Hn).
  simpl in Hr. subst res. rewrite filter_truthy_rate_line. auto.
Qed.


(** The silent call when no quote succeeds. *)
Lemma get_endicia_shipping_rates_none (c : Carrier) (log : list Request) :
  Carrier_search_cost_method w "endicia" = [c] ->
  (forall x, In x (_get_endicia_mail_classes w self) ->
             exists u, quote w self x = Raise (UserError u)) ->
  get_endicia_shipping_rates w self true log
  = (Ok [], log ++ requests_of w self (_get_endicia_mail_classes w self)).
Proof.
  intros Hc Hall.
  unfold get_endicia_shipping_rates, bind, lift. rewrite Hc. simpl.
  rewrite <- (app_nil_r (_get_endicia_mail_classes w self)) at 1.
  rewrite (shipping_rates_loop_skips c _ [] Hall). reflexivity.
Qed.

(** X14. When the quote of every eligible mail class raises a [UserError],
    and so also when there is no mail class, the silent call returns the
    empty list; it does not need the USD currency for that. *)
Theorem get_endicia_shipping_rates_all_fail (c : Carrier) (log : list Request) :
  Carrier_search_cost_method w "endicia" = [c] ->
  (forall x, In x (_get_endicia_mail_classes w self) ->
             exists u, quote w self x = Raise (UserError u)) ->
  get_endicia_shipping_rates w self true log
  = (Ok [], log ++ requests_of w self (_get_endicia_mail_classes w self))
  /\ (_get_endicia_mail_classes w self = [] ->
      get_endicia_shipping_rates w self true log = (Ok [], log)).
Proof.
  intros Hc Hall.
  pose proof (get_endicia_shipping_rates_none log Hc Hall) as H.
  split; [exact H|].
  intro Hnil. rewrite H, Hnil. unfold requests_of. simpl.
  rewrite app_nil_r. reflexivity.
Qed.

(** X15. When every quote succeeds the [silent] flag makes no difference:
    both calls return the same options, one for each eligible mail class,
    after the same requests. *)
Theorem get_endicia_shipping_rates_silent_irrelevant (c : Carrier)
    (usd : Currency) (log : list Request) :
  Carrier_search_cost_method w "endicia" = [c] ->
  Currency_search_code w "USD" = [usd] ->
  (forall m, In m (_get_endicia_mail_classes w self) ->
             is_Ok (quote w self m) = true) ->
  exists options log',
    get_endicia_shipping_rates w self true log = (Ok options, log')
    /\ get_endicia_shipping_rates w self false log = (Ok options, log')
    /\ List.length options = List.length (_get_endicia_mail_classes w self).
Proof.
  intros Hc Hu Hall.
  exists (quoted_options w self c usd (_get_endicia_mail_classes w self)).
  eexists. split; [|split].
  - eapply get_endicia_shipping_rates_completes; eauto.
    intros m Hm. specialize (Hall m Hm). simpl.
    destruct (quote w self m); [reflexivity | discriminate].
  - eapply get_endicia_shipping_rates_completes; eauto.
  - induction (_get_endicia_mail_classes w self) as [|m ms IH]; [reflexivity|].
    simpl. pose proof (Hall m (or_introl eq_refl)) as Hm.
    destruct (quote w self m); [|discriminate]. simpl.
    rewrite IH; [reflexivity|]. intros x Hx. apply Hall. right. exact Hx.
Qed.

(** X16. One product without weight empties rate shopping: when the first
    line whose weight cannot be computed raises the missing-weight error,
    every quote fails before a request is sent, so the silent call returns
    no option and sends nothing. *)
Theorem get_endicia_shipping_rates_missing_weight (c : Carrier) (loc : Location)
    (pre post : list SaleLine) (l : SaleLine) (u : user_error)
    (log : list Request) :
  Carrier_search_cost_method w "endicia" = [c] ->
  warehouse self = Some loc ->
  lines self = pre ++ l :: post ->
  (forall x, In x pre -> is_Ok (get_weight_for_endicia w x) = true) ->
  get_weight_for_endicia w l = Raise (UserError u) ->
  get_endicia_shipping_rates w self true log = (Ok [], log).
Proof.
  intros Hc Hw Hl Hpre He.
  assert (forall m, exists u',
            get_endicia_shipping_cost w self (Some (value m)) []
            = (Raise (UserError u'), [])) as Hq.
  { intro m.
    destruct (truthy_string (Some (value m))) eqn:Ht;
      [|destruct (endicia_mailclass self) as [mc|] eqn:Hs].
    - exists u. apply get_endicia_shipping_cost_no_request.
      eapply calculate_postage_request_bad_line; eauto.
    - exists u. apply get_endicia_shipping_cost_no_request.
      eapply calculate_postage_request_bad_line; eauto.
      right. rewrite Hs. discriminate.
    - exists MailClassMissingError.
      apply get_endicia_shipping_cost_no_request.
      apply calculate_postage_request_mailclass_missing. auto. }
  rewrite (get_endicia_shipping_rates_none log Hc).
  - f_equal. rewrite <- (app_nil_r log) at 2. f_equal.
    unfold requests_of, quote_requests.
    induction (_get_endicia_mail_classes w self) as [|m ms IH]; [reflexivity|].
    simpl. destruct (Hq m) as (u' & Hm). rewrite Hm. simpl. exact IH.
  - intros m _. destruct (Hq m) as (u' & Hm). exists u'.
    unfold quote. rewrite Hm. reflexivity.
Qed.

End RateShoppingOutcome.

(** ** More on applying the shipping cost *)

Lemma filter_none_negb {A} (f : A -> bool) (xs : list A) :
  filter f xs = [] -> filter (fun x => negb (f x)) xs = xs.
Proof.
  induction xs as [|x xs IH]; simpl; intro H; [reflexivity|].
  destruct (f x); [discriminate|]. simpl. rewrite (IH H). reflexivity.
Qed.

Lemma NoDup_map_filter {A B} (g : A -> B) (f : A -> bool) (xs : list A) :
  NoDup (map g xs) -> NoDup (map g (filter f xs)).
Proof.
  induction xs as [|x xs IH]; simpl; intro H; [constructor|].
  inversion H as [|? ? Hx Hxs]; subst.
  destruct (f x); [|apply IH; exact Hxs].
  simpl. constructor; [|apply IH; exact Hxs].
  intro Hin. apply Hx. apply in_map_iff in Hin.
  destruct Hin as (y & Hy & Hin). apply filter_In in Hin.
  apply in_map_iff. exists y. tauto.
Qed.

(** With distinct ids, deleting the shipment-cost lines leaves the other
    lines, in their order. *)
Lemma delete_shipment_cost_lines_others (ls : list SaleLine) :
  NoDup (map line_id ls) ->
  delete_lines (filter is_shipment_cost_line ls) ls
  = filter (fun l => negb (is_shipment_cost_line l)) ls.
Proof.
  intro Hnd.
  rewrite <- (filter_none_negb is_shipment_cost_line
                (delete_lines (filter is_shipment_cost_line ls) ls))
    by apply delete_shipment_cost_lines.
  apply delete_keeps_other_lines. exact Hnd.
Qed.

(** The lines of the sale after the write of [apply_endicia_shipping]. *)
Lemma written_lines (self : Sale) (c : Carrier) (mc : Mailclass) (d : Decimal) :
  lines (Sale_write_lines self
           [ create [shipping_line_values c mc d];
             delete (filter is_shipment_cost_line (lines self)) ])
  = delete_lines (filter is_shipment_cost_line (lines self)) (lines self)
    ++ [with_line_id (fresh_line_id (lines self)) (shipping_line_values c mc d)].
Proof.
  unfold Sale_write_lines. simpl. rewrite delete_lines_app.
  rewrite delete_keeps_fresh by (intros r Hr; apply filter_In in Hr; tauto).
  reflexivity.
Qed.

Lemma fresh_line_id_not_in (ls : list SaleLine) :
  ~ In (fresh_line_id ls) (map line_id ls).
Proof.
  intro H. apply in_map_iff in H. destruct H as (l & Hid & Hl).
  pose proof (fresh_line_id_above ls l Hl). lia.
Qed.

Lemma written_lines_NoDup (self : Sale) (c : Carrier) (mc : Mailclass)
    (d : Decimal) :
  NoDup (map line_id (lines self)) ->
  NoDup (map line_id
           (lines (Sale_write_lines self
                     [ create [shipping_line_values c mc d];
                       delete (filter is_shipment_cost_line (lines self)) ]))).
Proof.
  intro Hnd. rewrite written_lines, map_app. simpl.
  apply NoDup_app.
  - unfold delete_lines. apply NoDup_map_filter. exact Hnd.
  - constructor; [intros [] | constructor].
  - intros i Hi [Hf|[]]. subst i.
    apply (fresh_line_id_not_in (lines self)).
    unfold delete_lines in Hi. apply in_map_iff in Hi.
    destruct Hi as (l & Hid & Hl). apply filter_In in Hl.
    apply in_map_iff. exists l. tauto.
Qed.

(** X18. On a sale whose lines have distinct ids, the write keeps every
    line that is not a shipment-cost line, deletes the others, and adds one
    line: the shipping line of the carrier product, with the name of the
    mail class and the converted cost, under an id that no line of the sale
    had. *)
Theorem apply_endicia_shipping_lines (w : World) (self : Sale) (c : Carrier)
    (mc : Mailclass) (cost : Decimal) (k : nat) (usd : Currency) :
  carrier self = Some c ->
  carrier_cost_method c = "endicia" ->
  endicia_mailclass self = Some mc ->
  get_sale_price w self = Ok (Some cost, k) ->
  ~ cost == 0 ->
  Currency_search_code w "USD" = [usd] ->
  NoDup (map line_id (lines self)) ->
  exists s' l,
    apply_endicia_shipping w self = Ok s'
    /\ Permutation (lines s')
         (l :: filter (fun x => negb (is_shipment_cost_line x)) (lines self))
    /\ with_line_id 0 l
       = shipping_line_values c mc (Currency_compute w usd cost (currency self))
    /\ ~ In (line_id l) (map line_id (lines self)).
Proof.
  intros Hc Hm Hmc Hp Hnz Hu Hnd.
  eexists. eexists.
  split; [eapply apply_endicia_shipping_writes; eassumption|].
  rewrite written_lines, delete_shipment_cost_lines_others by exact Hnd.
  split; [apply Permutation_sym, Permutation_cons_append|].
  split; [reflexivity | apply fresh_line_id_not_in].
Qed.

Lemma filter_filter_same {A} (f : A -> bool) (xs : list A) :
  filter f (filter f xs) = filter f xs.
Proof.
  induction xs as [|x xs IH]; simpl; [reflexivity|].
  destruct (f x) eqn:Hx; simpl; rewrite ?Hx, IH; reflexivity.
Qed.

(** X20. Applying the shipping cost again, with the same price, changes
    nothing but the id of the shipping line: on a sale whose lines have
    distinct ids and with a converted cost that is not zero, after the first
    call and after the second the sale has the lines that are not
    shipment-cost lines and one shipping line, with the same values both
    times; the second call has deleted the shipping line of the first. *)
Theorem apply_endicia_shipping_again (w : World) (self : Sale) (c : Carrier)
    (mc : Mailclass) (cost : Decimal) (k1 k2 : nat) (usd : Currency) :
  carrier self = Some c ->
  carrier_cost_method c = "endicia" ->
  endicia_mailclass self = Some mc ->
  get_sale_price w self = Ok (Some cost, k1) ->
  get_sale_price w (sale_after w self) = Ok (Some cost, k2) ->
  ~ cost == 0 ->
  Currency_search_code w "USD" = [usd] ->
  ~ Currency_compute w usd cost (currency self) == 0 ->
  NoDup (map line_id (lines self)) ->
  let others := filter (fun l => negb (is_shipment_cost_line l)) (lines self) in
  let line := shipping_line_values c mc
                (Currency_compute w usd cost (currency self)) in
  exists l1 l2,
    Permutation (lines (sale_after w self)) (l1 :: others)
    /\ Permutation (lines (sale_after w (sale_after w self))) (l2 :: others)
    /\ with_line_id 0 l1 = line
    /\ with_line_id 0 l2 = line
    /\ line_id l2 <> line_id l1
    /\ shipment_cost_lines (sale_after w (sale_after w self)) = [l2].
Proof.
  intros Hc Hm Hmc Hp1 Hp2 Hnz Hu Hd Hnd others line. subst others line.
  pose proof (apply_endicia_shipping_writes w self Hc Hm Hmc Hp1 Hnz Hu) as H1.
  assert (sale_after w self
          = Sale_write_lines self
              [ create [shipping_line_values c mc
                          (Currency_compute w usd cost (currency self))];
                delete (filter is_shipment_cost_line (lines self)) ]) as Hs1
    by (unfold sale_after; rewrite H1; reflexivity).
  assert (lines (sale_after w self)
          = filter (fun l => negb (is_shipment_cost_line l)) (lines self)
            ++ [with_line_id (fresh_line_id (lines self))
                  (shipping_line_values c mc
                     (Currency_compute w usd cost (currency self)))]) as Hl1.
  { rewrite Hs1, written_lines, delete_shipment_cost_lines_others by exact Hnd.
    reflexivity. }
  assert (NoDup (map line_id (lines (sale_after w self)))) as Hnd1
    by (rewrite Hs1; apply written_lines_NoDup; exact Hnd).
  assert (carrier (sale_after w self) = Some c) as Hc1
    by (rewrite Hs1; exact Hc).
  assert (endicia_mailclass (sale_after w self) = Some mc) as Hmc1
    by (rewrite Hs1; exact Hmc).
  assert (currency (sale_after w self) = currency self) as Hcur
    by (rewrite Hs1; reflexivity).
  pose proof (apply_endicia_shipping_writes w (sale_after w self)
                Hc1 Hm Hmc1 Hp2 Hnz Hu) as H2.
  rewrite Hcur in H2.
  assert (is_shipment_cost_line
            (shipping_line_values c mc
               (Currency_compute w usd cost (currency self))) = true)
    as Hship
    by (unfold is_shipment_cost_line; simpl; apply nonzero_true; exact Hd).
  assert (forall i,
            is_shipment_cost_line
              (with_line_id i
                 (shipping_line_values c mc
                    (Currency_compute w usd cost (currency self)))) = true)
    as Hship' by (intro i; exact Hship).
  assert (lines (sale_after w (sale_after w self))
          = filter (fun l => negb (is_shipment_cost_line l)) (lines self)
            ++ [with_line_id (fresh_line_id (lines (sale_after w self)))
                  (shipping_line_values c mc
                     (Currency_compute w usd cost (currency self)))]) as Hl2.
  { unfold sale_after at 1. rewrite H2.
    rewrite written_lines, delete_shipment_cost_lines_others by exact Hnd1.
    rewrite Hl1 at 1. rewrite filter_app, filter_filter_same.
    cbn [filter]. rewrite Hship'. cbn [negb app]. rewrite app_nil_r.
    reflexivity. }
  eexists. eexists.
  split; [rewrite Hl1; apply Permutation_sym, Permutation_cons_append|].
  split; [rewrite Hl2; apply Permutation_sym, Permutation_cons_append|].
  split; [reflexivity|]. split; [reflexivity|].
  split.
  - cbn [line_id with_line_id]. intro Heq.
    apply (fresh_line_id_not_in (lines (sale_after w self))).
    rewrite Heq, Hl1, map_app. apply in_or_app. right. left. reflexivity.
  - unfold shipment_cost_lines. rewrite Hl2, filter_app.
    cbn [filter]. rewrite Hship'.
    assert (forall xs : list SaleLine,
              filter is_shipment_cost_line
                (filter (fun l => negb (is_shipment_cost_line l)) xs) = [])
      as Hnone.
    { induction xs as [|x xs IH]; simpl; [reflexivity|].
      destruct (is_shipment_cost_line x) eqn:Hx; simpl;
        rewrite ?Hx; exact IH. }
    rewrite Hnone. reflexivity.
Qed.

(** X21. The price and the USD currency: an exception of the price
    computation leaves the call as it is; with a price that is not zero,
    the call raises [ValueError] when USD does not resolve to exactly one
    currency. *)
Theorem apply_endicia_shipping_errors (w : World) (self : Sale) (c : Carrier)
    (mc : Mailclass) :
  carrier self = Some c ->
  carrier_cost_method c = "endicia" ->
  endicia_mailclass self = Some mc ->
  (forall e, get_sale_price w self = Raise e ->
             apply_endicia_shipping w self = Raise e)
  /\ (forall cost k,
        get_sale_price w self = Ok (Some cost, k) ->
        ~ cost == 0 ->
        List.length (Currency_search_code w "USD") <> 1%nat ->
        apply_endicia_shipping w self = Raise ValueError).
Proof.
  intros Hc Hm Hmc. unfold apply_endicia_shipping. rewrite Hc, Hm, Hmc.
  split.
  - intros e He. rewrite He. reflexivity.
  - intros cost k Hp Hnz Hu. rewrite Hp. simpl.
    apply nonzero_true in Hnz. rewrite Hnz. simpl.
    rewrite (unpack1_not_singleton _ Hu). reflexivity.
Qed.

(** ** Updating the shipping cost of several sales *)

Lemma update_endicia_shipment_cost_rmap (w : World) (sales : list Sale) :
  update_endicia_shipment_cost w sales = rmap (apply_endicia_shipping w) sales.
Proof.
  induction sales as [|s sales IH]; simpl; [reflexivity|].
  rewrite IH. reflexivity.
Qed.

Lemma rmap_Forall2 {A B} (f : A -> result B) (xs : list A) (ys : list B) :
  Forall2 (fun x y => f x = Ok y) xs ys -> rmap f xs = Ok ys.
Proof.
  induction 1 as [|x y xs ys Hx _ IH]; simpl; [reflexivity|].
  rewrite Hx, IH. reflexivity.
Qed.

(** X22. The update of distinct sales returns when every call of
    [apply_endicia_shipping] returns, and then with each sale as its own
    call left it, in the order given. *)
Theorem update_endicia_shipment_cost_pointwise (w : World)
    (sales sales' : list Sale) :
  NoDup (map sale_id sales) ->
  (update_endicia_shipment_cost w sales = Ok sales'
   <-> Forall2 (fun s s' => apply_endicia_shipping w s = Ok s') sales sales').
Proof.
  intros _. rewrite update_endicia_shipment_cost_rmap. split.
  - apply rmap_ok.
  - apply rmap_Forall2.
Qed.

(** X23. The update stops at the first sale whose call raises: the
    exception of that sale leaves the update, whatever the sales after it
    are. *)
Theorem update_endicia_shipment_cost_first_failure (w : World)
    (pre post : list Sale) (s : Sale) (e : exn) :
  NoDup (map sale_id (pre ++ s :: post)) ->
  (forall x, In x pre -> is_Ok (apply_endicia_shipping w x) = true) ->
  apply_endicia_shipping w s = Raise e ->
  update_endicia_shipment_cost w (pre ++ s :: post) = Raise e.
Proof.
  intros _ Hpre Hs. rewrite update_endicia_shipment_cost_rmap.
  apply rmap_first_raise; assumption.
Qed.

(** ** Shipments *)

Section CreateShipment.

Variable inherited : string -> result (option (list Shipment)).
Variable self : Sale.

(** X24. [create_shipment] returns what the inherited method returns, or
    raises what it raises, unless the shipments are outgoing, there is at
    least one and the carrier of the sale is endicia. *)
Theorem create_shipment_inherited (shipment_type : string) :
  (shipment_type <> "out"
   \/ get_is_endicia_shipping self = false
   \/ inherited shipment_type = Ok None
   \/ inherited shipment_type = Ok (Some [])
   \/ exists e, inherited shipment_type = Raise e) ->
  create_shipment inherited self shipment_type = inherited shipment_type.
Proof.
  unfold create_shipment.
  intros [H | [H | [H | [H | (e & H)]]]].
  - apply String.eqb_neq in H. rewrite H.
    destruct (inherited shipment_type); reflexivity.
  - rewrite H. destruct (inherited shipment_type) as [[[|s ss]|]|e]; simpl;
      destruct (String.eqb shipment_type "out"); reflexivity.
  - rewrite H. simpl. destruct (String.eqb shipment_type "out"); reflexivity.
  - rewrite H. simpl. destruct (String.eqb shipment_type "out"); reflexivity.
  - rewrite H. reflexivity.
Qed.

(** X25. The outgoing shipments of a sale shipped with endicia are the
    ones of the inherited method, in the same order, each with the id of
    the mail class of the sale and marked as endicia shipping. *)
Theorem create_shipment_stamps (mc : Mailclass) (s : Shipment)
    (ss : list Shipment) :
  get_is_endicia_shipping self = true ->
  endicia_mailclass self = Some mc ->
  inherited "out" = Ok (Some (s :: ss)) ->
  exists shipments,
    create_shipment inherited self "out" = Ok (Some shipments)
    /\ map shipment_id shipments = map shipment_id (s :: ss)
    /\ Forall (fun x => shipment_endicia_mailclass x = Some (mailclass_id mc)
                        /\ shipment_is_endicia_shipping x = true) shipments.
Proof.
  intros He Hmc Hi.
  exists (Shipment_write (s :: ss) (mailclass_id mc) true). split; [|split].
  - unfold create_shipment. rewrite Hi. cbn [rbind].
    rewrite String.eqb_refl, He, Hmc. reflexivity.
  - unfold Shipment_write. rewrite map_map. reflexivity.
  - unfold Shipment_write. apply Forall_forall. intros x Hx.
    apply in_map_iff in Hx. destruct Hx as (y & <- & _). split; reflexivity.
Qed.

(** X26. Outgoing shipments of a sale shipped with endicia that has no
    mail class selected: the id of the mail class is read from [None], and
    the call raises [AttributeError] after the inherited method created
    the shipments. *)
Theorem create_shipment_without_mailclass (s : Shipment) (ss : list Shipment) :
  get_is_endicia_shipping self = true ->
  endicia_mailclass self = None ->
  inherited "out" = Ok (Some (s :: ss)) ->
  create_shipment inherited self "out" = Raise AttributeError.
Proof.
  intros He Hmc Hi. unfold create_shipment. rewrite Hi. simpl.
  rewrite He, Hmc. reflexivity.
Qed.

End CreateShipment.

(** ** Defaults, contexts and changes *)

Lemma dict_get_set_same {V} (key : string) (v : V) (d : dict V) :
  dict_get key (dict_set key v d) = Some v.
Proof.
  induction d as [|[k v'] d IH]; simpl.
  - rewrite String.eqb_refl. reflexivity.
  - destruct (String.eqb k key) eqn:Hk; simpl; rewrite Hk; [reflexivity|exact IH].
Qed.

Lemma dict_get_set_other {V} (key key' : string) (v : V) (d : dict V) :
  key' <> key -> dict_get key' (dict_set key v d) = dict_get key' d.
Proof.
  intro Hne. induction d as [|[k v'] d IH]; simpl.
  - assert (String.eqb key key' = false) as H
      by (apply String.eqb_neq; congruence).
    rewrite H. reflexivity.
  - destruct (String.eqb k key) eqn:Hk; simpl.
    + apply String.eqb_eq in Hk. subst k.
      assert (String.eqb key key' = false) as H
        by (apply String.eqb_neq; congruence).
      rewrite H. reflexivity.
    + rewrite IH. reflexivity.
Qed.

(** X27. The default mail class of a new sale is the id of the mail class
    of the configuration; there is none when the configuration has no mail
    class, and, by the and-or idiom, none either for a mail class whose id
    is 0. *)
Theorem default_endicia_mailclass_id (config : Configuration) (i : nat) :
  default_endicia_mailclass config = Some i
  <-> exists mc, configured_mailclass config = Some mc
                 /\ mailclass_id mc = i /\ i <> 0%nat.
Proof.
  unfold default_endicia_mailclass. split.
  - destruct (configured_mailclass config) as [mc|]; [|discriminate].
    destruct (Nat.eqb (mailclass_id mc) 0) eqn:H0; [discriminate|].
    intro H. injection H as <-. exists mc. apply Nat.eqb_neq in H0. auto.
  - intros (mc & Hc & Hi & Hnz). rewrite Hc, Hi.
    apply Nat.eqb_neq in Hnz. rewrite Hnz. reflexivity.
Qed.

(** X28. The carrier context: for an endicia carrier it holds the id of the
    sale under 'sale' and the inherited value under every other key; for
    another carrier it is the inherited context; a sale without carrier
    raises [AttributeError]. *)
Theorem _get_carrier_context_sale (inherited : dict context_value) (self : Sale) :
  (forall c, carrier self = Some c -> carrier_cost_method c = "endicia" ->
     exists context,
       _get_carrier_context inherited self = Ok context
       /\ dict_get "sale" context = Some (ctx_id (sale_id self))
       /\ forall key, key <> "sale" ->
                      dict_get key context = dict_get key inherited)
  /\ (forall c, carrier self = Some c -> carrier_cost_method c <> "endicia" ->
        _get_carrier_context inherited self = Ok inherited)
  /\ (carrier self = None ->
      _get_carrier_context inherited self = Raise AttributeError).
Proof.
  unfold _get_carrier_context. repeat split.
  - intros c Hc Hm. rewrite Hc, Hm. simpl. eexists. split; [reflexivity|].
    split; [apply dict_get_set_same|].
    intros key Hk. apply dict_get_set_other. exact Hk.
  - intros c Hc Hm. apply String.eqb_neq in Hm. rewrite Hc, Hm. reflexivity.
  - intro Hc. rewrite Hc. reflexivity.
Qed.

(** X29. The changes of [on_change_carrier]: the inherited ones, and under
    'is_endicia_shipping' the carrier test, which is [None] without
    carrier and true exactly when [get_is_endicia_shipping] holds. *)
Theorem on_change_carrier_flag (inherited : dict (option bool)) (self : Sale) :
  dict_get "is_endicia_shipping" (on_change_carrier inherited self)
  = Some (carrier_and_endicia self)
  /\ (forall key, key <> "is_endicia_shipping" ->
        dict_get key (on_change_carrier inherited self) = dict_get key inherited)
  /\ (carrier_and_endicia self = Some true
      <-> get_is_endicia_shipping self = true)
  /\ (carrier_and_endicia self = None <-> carrier self = None).
Proof.
  unfold on_change_carrier. repeat split.
  - apply dict_get_set_same.
  - intros key Hk. apply dict_get_set_other. exact Hk.
  - unfold carrier_and_endicia, get_is_endicia_shipping.
    destruct (carrier self); congruence.
  - unfold carrier_and_endicia, get_is_endicia_shipping.
    destruct (carrier self); congruence.
  - unfold carrier_and_endicia. destruct (carrier self); congruence.
  - unfold carrier_and_endicia. intro H. rewrite H. reflexivity.
Qed.

(** ** The further properties on concrete sales *)

Lemma get_weight_for_endicia_outcome_witness :
  get_weight_for_endicia example_world (line_of 5 ghost 1)
  = Raise (UserError (MissingWeightError "Ghost"))
  /\ exists p, product (line_of 5 ghost 1) = Some p
       /\ (UserError (MissingWeightError "Ghost")
           = UserError (MissingWeightError (product_name p))
           \/ (UserError (MissingWeightError "Ghost") = ValueError
               /\ symbol (weight_uom p) <> "oz")).
Proof.
  assert (get_weight_for_endicia example_world (line_of 5 ghost 1)
          = Raise (UserError (MissingWeightError "Ghost"))) as H
    by reflexivity.
  split; [exact H|].
  exact (get_weight_for_endicia_outcome example_world (line_of 5 ghost 1) H).
Defined.

Lemma get_weight_for_endicia_needs_ounce_witness :
  List.length (ProductUom_search_symbol no_ounce_world "oz") <> 1%nat
  /\ get_weight_for_endicia no_ounce_world (line_of 2 anvil 2) = Raise ValueError.
Proof.
  assert (List.length (ProductUom_search_symbol no_ounce_world "oz") <> 1%nat)
    as H by (vm_compute; discriminate).
  split; [exact H|].
  apply (@get_weight_for_endicia_needs_ounce no_ounce_world (line_of 2 anvil 2)
           anvil 2 16).
  - reflexivity.
  - discriminate.
  - reflexivity.
  - reflexivity.
  - reflexivity.
  - discriminate.
  - discriminate.
  - exact H.
Defined.


Lemma get_weight_for_endicia_without_conversion_witness :
  get_weight_for_endicia example_world (line_of 1 letter 3)
  = get_weight_for_endicia no_ounce_world (line_of 1 letter 3).
Proof.
  apply get_weight_for_endicia_without_conversion.
  intros p Hp. injection Hp as <-. split; reflexivity.
Defined.

Lemma calculate_postage_request_express :
  calculate_postage_request example_world letter_sale (Some "Express")
  = Ok express_request.
Proof. vm_compute. reflexivity. Qed.

Lemma calculate_postage_request_mailclass_witness :
  (truthy_string (Some "Express") = true ->
   Some "Express" = Some (req_mailclass express_request))
  /\ (truthy_string (Some "Express") = false ->
      exists mc, endicia_mailclass letter_sale = Some mc
                 /\ req_mailclass express_request = value mc).
Proof.
  exact (calculate_postage_request_mailclass example_world letter_sale
           (Some "Express") calculate_postage_request_express).
Defined.

Lemma calculate_postage_request_postal_codes_witness :
  exists loc a_from z_from a_to z_to rest_from rest_to,
    warehouse letter_sale = Some loc
    /\ address loc = Some a_from
    /\ zip a_from = Some z_from
    /\ shipment_address letter_sale = Some a_to
    /\ zip a_to = Some z_to
    /\ z_from = (req_from_postal_code express_request ++ rest_from)%string
    /\ String.length (req_from_postal_code express_request)
       = Nat.min 5 (String.length z_from)
    /\ z_to = (req_to_postal_code express_request ++ rest_to)%string
    /\ String.length (req_to_postal_code express_request)
       = Nat.min 5 (String.length z_to).
Proof.
  exact (calculate_postage_request_postal_codes example_world letter_sale
           (Some "Express") calculate_postage_request_express).
Defined.

Lemma get_endicia_shipping_cost_ghost :
  get_endicia_shipping_cost example_world ghost_sale (Some "Priority") []
  = (Raise (UserError (MissingWeightError "Ghost")), []).
Proof. vm_compute. reflexivity. Qed.

Lemma get_endicia_shipping_cost_user_errors_witness :
  (MissingWeightError "Ghost" = MailClassMissingError /\ @nil Request = []
   /\ truthy_string (Some "Priority") = false
   /\ endicia_mailclass ghost_sale = None)
  \/ (exists l p, In l (lines ghost_sale) /\ product l = Some p
                  /\ MissingWeightError "Ghost" = MissingWeightError (product_name p)
                  /\ @nil Request = [])
  \/ (exists request message,
        calculate_postage_request example_world ghost_sale (Some "Priority")
        = Ok request
        /\ send_request example_world request = ServiceError message
        /\ MissingWeightError "Ghost" = CarrierRequestError example_world message
        /\ [] = [] ++ [request]).
Proof.
  exact (get_endicia_shipping_cost_user_errors example_world ghost_sale
           (Some "Priority") [] get_endicia_shipping_cost_ghost).
Defined.

Lemma get_endicia_shipping_cost_first_bad_line_witness :
  get_weight_for_endicia example_world (line_of 5 ghost 1)
  = Raise (UserError (MissingWeightError "Ghost"))
  /\ get_endicia_shipping_cost example_world ghost_sale None [request_for "First"]
     = (Raise (UserError (MissingWeightError "Ghost")), [request_for "First"]).
Proof.
  split; [reflexivity|].
  apply (@get_endicia_shipping_cost_first_bad_line example_world ghost_sale None
           depot [line_of 1 letter 1] [line_of 2 anvil 2] (line_of 5 ghost 1)).
  - reflexivity.
  - right. discriminate.
  - reflexivity.
  - intros x [<-|[]]. reflexivity.
  - reflexivity.
Defined.

Lemma get_endicia_shipping_cost_bad_response_witness :
  get_endicia_shipping_cost odd_world letter_sale (Some "Parcel") []
  = (Raise (Exception "URLError"), [request_for "Parcel"])
  /\ get_endicia_shipping_cost odd_world letter_sale (Some "Priority") []
     = (Raise TypeError, [request_for "Priority"])
  /\ get_endicia_shipping_cost odd_world letter_sale (Some "First") []
     = (Raise InvalidOperation, [request_for "First"]).
Proof.
  assert (forall m, In m ["Parcel"; "Priority"; "First"] ->
            calculate_postage_request odd_world letter_sale (Some m)
            = Ok (request_for m)) as Hr
    by (intros m [<-|[<-|[<-|[]]]]; vm_compute; reflexivity).
  split; [|split].
  - apply (proj1 (get_endicia_shipping_cost_bad_response odd_world letter_sale
                    (Some "Parcel") [] (Hr "Parcel" (or_introl eq_refl))) "URLError").
    reflexivity.
  - apply (proj1 (proj2 (get_endicia_shipping_cost_bad_response odd_world
                           letter_sale (Some "Priority") []
                           (Hr "Priority" (or_intror (or_introl eq_refl)))))
             {| TotalAmount := None |}); reflexivity.
  - apply (proj2 (proj2 (get_endicia_shipping_cost_bad_response odd_world
                           letter_sale (Some "First") []
                           (Hr "First" (or_intror (or_intror (or_introl eq_refl))))))
             {| TotalAmount := Some "five" |} "five"); reflexivity.
Defined.

Lemma get_endicia_shipping_rates_example :
  get_endicia_shipping_rates example_world letter_sale true []
  = (Ok [rate_option example_world usps USD priority (525 # 100);
         rate_option example_world usps USD first_class (210 # 100)],
     [request_for "Priority"; request_for "First"]).
Proof. vm_compute. reflexivity. Qed.

Lemma get_endicia_shipping_rates_returns_witness :
  exists c,
    Carrier_search_cost_method example_world "endicia" = [c]
    /\ Forall (option_of example_world letter_sale c
                 (_get_endicia_mail_classes example_world letter_sale))
         [rate_option example_world usps USD priority (525 # 100);
          rate_option example_world usps USD first_class (210 # 100)]
    /\ (List.length
          [rate_option example_world usps USD priority (525 # 100);
           rate_option example_world usps USD first_class (210 # 100)]
        <= List.length (_get_endicia_mail_classes example_world letter_sale))%nat.
Proof.
  exact (get_endicia_shipping_rates_returns example_world letter_sale true []
           get_endicia_shipping_rates_example).
Defined.


Lemma get_endicia_shipping_rates_all_fail_witness :
  get_endicia_shipping_rates failing_world letter_sale true []
  = (Ok [], [] ++ requests_of failing_world letter_sale
                    (_get_endicia_mail_classes failing_world letter_sale))
  /\ requests_of failing_world letter_sale
       (_get_endicia_mail_classes failing_world letter_sale)
     = [request_for "Express"].
Proof.
  split; [|vm_compute; reflexivity].
  apply (proj1 (@get_endicia_shipping_rates_all_fail failing_world letter_sale
                  usps [] eq_refl
                  ltac:(intros x [<-|[<-|[]]]; eexists; vm_compute; reflexivity))).
Defined.

Lemma get_endicia_shipping_rates_silent_irrelevant_witness :
  exists options log',
    get_endicia_shipping_rates succeeding_world letter_sale true []
    = (Ok options, log')
    /\ get_endicia_shipping_rates succeeding_world letter_sale false []
       = (Ok options, log')
    /\ List.length options
       = List.length (_get_endicia_mail_classes succeeding_world letter_sale).
Proof.
  apply (@get_endicia_shipping_rates_silent_irrelevant succeeding_world
           letter_sale usps USD []).
  - reflexivity.
  - reflexivity.
  - intros m [<-|[<-|[]]]; vm_compute; reflexivity.
Defined.

Lemma get_endicia_shipping_rates_missing_weight_witness :
  get_weight_for_endicia example_world (line_of 5 ghost 1)
  = Raise (UserError (MissingWeightError "Ghost"))
  /\ get_endicia_shipping_rates example_world ghost_sale true [] = (Ok [], []).
Proof.
  split; [reflexivity|].
  apply (@get_endicia_shipping_rates_missing_weight example_world ghost_sale
           usps depot [line_of 1 letter 1] [line_of 2 anvil 2]
           (line_of 5 ghost 1) (MissingWeightError "Ghost") []).
  - reflexivity.
  - reflexivity.
  - reflexivity.
  - intros x [<-|[]]. reflexivity.
  - reflexivity.
Defined.

Lemma priority_sale_NoDup : NoDup (map line_id (lines priority_sale)).
Proof.
  simpl. constructor; [|constructor; [|constructor]].
  - intros [H|[]]. discriminate.
  - intros [].
Qed.

Lemma apply_endicia_shipping_lines_witness :
  exists s' l,
    apply_endicia_shipping example_world priority_sale = Ok s'
    /\ Permutation (lines s')
         (l :: filter (fun x => negb (is_shipment_cost_line x))
                 (lines priority_sale))
    /\ with_line_id 0 l
       = shipping_line_values usps priority
           (Currency_compute example_world USD (21 # 4)
              (currency priority_sale))
    /\ ~ In (line_id l) (map line_id (lines priority_sale)).
Proof.
  apply (@apply_endicia_shipping_lines example_world priority_sale usps
           priority (21 # 4) 1%nat USD).
  - reflexivity.
  - reflexivity.
  - reflexivity.
  - reflexivity.
  - discriminate.
  - reflexivity.
  - exact priority_sale_NoDup.
Defined.

Lemma apply_endicia_shipping_again_witness :
  exists l1 l2,
    Permutation (lines (sale_after example_world priority_sale))
      (l1 :: filter (fun l => negb (is_shipment_cost_line l))
               (lines priority_sale))
    /\ Permutation
         (lines (sale_after example_world
                   (sale_after example_world priority_sale)))
         (l2 :: filter (fun l => negb (is_shipment_cost_line l))
                  (lines priority_sale))
    /\ with_line_id 0 l1
       = shipping_line_values usps priority
           (Currency_compute example_world USD (21 # 4)
              (currency priority_sale))
    /\ with_line_id 0 l2
       = shipping_line_values usps priority
           (Currency_compute example_world USD (21 # 4)
              (currency priority_sale))
    /\ line_id l2 <> line_id l1
    /\ shipment_cost_lines
         (sale_after example_world (sale_after example_world priority_sale))
       = [l2].
Proof.
  apply (@apply_endicia_shipping_again example_world priority_sale usps
           priority (21 # 4) 1%nat 1%nat USD).
  - reflexivity.
  - reflexivity.
  - reflexivity.
  - reflexivity.
  - reflexivity.
  - discriminate.
  - reflexivity.
  - discriminate.
  - exact priority_sale_NoDup.
Defined.

Lemma apply_endicia_shipping_errors_witness :
  List.length (Currency_search_code no_usd_world "USD") <> 1%nat
  /\ apply_endicia_shipping no_usd_world priority_sale = Raise ValueError.
Proof.
  assert (List.length (Currency_search_code no_usd_world "USD") <> 1%nat) as Hu
    by (vm_compute; discriminate).
  split; [exact Hu|].
  apply (proj2 (@apply_endicia_shipping_errors no_usd_world priority_sale usps
                  priority eq_refl eq_refl eq_refl) (21 # 4) 1%nat).
  - reflexivity.
  - discriminate.
  - exact Hu.
Defined.

Lemma update_endicia_shipment_cost_pointwise_witness :
  NoDup (map sale_id [priority_sale; third_sale])
  /\ (update_endicia_shipment_cost example_world [priority_sale; third_sale]
      = Ok [sale_after example_world priority_sale; third_sale]
      <-> Forall2 (fun s s' => apply_endicia_shipping example_world s = Ok s')
            [priority_sale; third_sale]
            [sale_after example_world priority_sale; third_sale]).
Proof.
  assert (NoDup (map sale_id [priority_sale; third_sale])) as H.
  { simpl. constructor; [|constructor; [|constructor]].
    - intros [H|[]]. discriminate.
    - intros []. }
  split; [exact H|].
  exact (update_endicia_shipment_cost_pointwise example_world
           [priority_sale; third_sale]
           [sale_after example_world priority_sale; third_sale] H).
Defined.

Lemma update_endicia_shipment_cost_first_failure_witness :
  NoDup (map sale_id ([priority_sale] ++ unselected_sale :: [third_sale]))
  /\ update_endicia_shipment_cost example_world
       ([priority_sale] ++ unselected_sale :: [third_sale])
     = Raise (UserError MailClassMissingError).
Proof.
  assert (NoDup (map sale_id ([priority_sale] ++ unselected_sale :: [third_sale])))
    as H.
  { simpl. constructor; [|constructor; [|constructor; [|constructor]]].
    - intros [H|[H|[]]]; discriminate.
    - intros [H|[]]. discriminate.
    - intros []. }
  split; [exact H|].
  apply (@update_endicia_shipment_cost_first_failure example_world
           [priority_sale] [third_sale] unselected_sale
           (UserError MailClassMissingError) H).
  - intros x [<-|[]]. reflexivity.
  - reflexivity.
Defined.

Lemma create_shipment_inherited_witness :
  create_shipment example_create_shipment priority_sale "return"
  = example_create_shipment "return"
  /\ create_shipment example_create_shipment third_sale "out"
     = example_create_shipment "out".
Proof.
  split.
  - apply create_shipment_inherited. left. discriminate.
  - apply create_shipment_inherited. right. left. reflexivity.
Defined.

Lemma create_shipment_stamps_witness :
  exists shipments,
    create_shipment example_create_shipment priority_sale "out"
    = Ok (Some shipments)
    /\ map shipment_id shipments = map shipment_id example_shipments
    /\ Forall (fun x => shipment_endicia_mailclass x
                        = Some (mailclass_id priority)
                        /\ shipment_is_endicia_shipping x = true) shipments.
Proof.
  apply (@create_shipment_stamps example_create_shipment priority_sale priority);
    reflexivity.
Defined.

Lemma create_shipment_without_mailclass_witness :
  create_shipment example_create_shipment unselected_sale "out"
  = Raise AttributeError.
Proof.
  eapply create_shipment_without_mailclass; reflexivity.
Defined.

Lemma _get_carrier_context_sale_witness :
  (exists context,
     _get_carrier_context example_context priority_sale = Ok context
     /\ dict_get "sale" context = Some (ctx_id (sale_id priority_sale))
     /\ forall key, key <> "sale" ->
                    dict_get key context = dict_get key example_context)
  /\ _get_carrier_context example_context third_sale = Ok example_context.
Proof.
  split.
  - apply (proj1 (_get_carrier_context_sale example_context priority_sale) usps);
      reflexivity.
  - apply (proj1 (proj2 (_get_carrier_context_sale example_context third_sale))
             courier); [reflexivity | discriminate].
Defined.
